(** * EsoCore server: device-facing ingestion, OTA and event views

    A shallow embedding of [server/iot/views.py], [server/events/views.py]
    and the models they use ([devices], [telemetry], [events]).  Tables are
    lists of rows, a view is a function from the request and the store to a
    response and the new store, and a Python exception is a value of
    [result]. *)

From Stdlib Require Import List String Ascii Bool Arith ZArith QArith Lia.
Import ListNotations.
Local Close Scope Q_scope.
Local Open Scope nat_scope.
Local Open Scope string_scope.

Set Implicit Arguments.
#[local] Set Warnings "-register-all".

(** ** Python values and exceptions *)

(** Parsed JSON, as [request.data] and the items of a batch hold it.
    [JNull] is Python's [None]. *)
Inductive json : Type :=
| JNull
| JBool (b : bool)
| JNum (q : Q)
| JStr (s : string)
| JArr (l : list json)
| JObj (kv : list (string * json)).

Inductive exn : Type :=
| AttributeError
| TypeError
| ValueError
| ValidationError
| IntegrityError
| DataError
| ParseError
| RawPostDataException
| DoesNotExist
| MultipleObjectsReturned
| Http404.

Inductive result (A : Type) : Type :=
| Ok (a : A)
| Raise (e : exn).
Arguments Ok {A} a.
Arguments Raise {A} e.

Definition bind {A B} (r : result A) (k : A -> result B) : result B :=
  match r with
  | Ok a => k a
  | Raise e => Raise e
  end.

Notation "x <- r ;; k" := (bind r (fun x => k))
  (at level 61, r at next level, right associativity).

Definition datetime := Z.
Definition UUID := N.

(** Truth value of a header or field read with [.get]: [None] and the empty
    string are false. *)
Definition truthy (v : option string) : bool :=
  match v with
  | Some s => negb (s =? "")
  | None => false
  end.

(** [a or b] on two optional strings. *)
Definition py_or (a b : option string) : option string :=
  if truthy a then a else b.

(** Truth value of a JSON value. *)
Definition json_truthy (v : json) : bool :=
  match v with
  | JNull => false
  | JBool b => b
  | JNum q => negb (Qeq_bool q 0)
  | JStr s => negb (s =? "")
  | JArr l => match l with [] => false | _ => true end
  | JObj kv => match kv with [] => false | _ => true end
  end.

Fixpoint assoc {A} (k : string) (kv : list (string * A)) : option A :=
  match kv with
  | [] => None
  | (k', v) :: rest => if k' =? k then Some v else assoc k rest
  end.

(** [d.get(k)] and [d.get(k, default)].  On anything but a dict the
    attribute lookup itself fails. *)
Definition py_get_default (d : json) (k : string) (default : json) : result json :=
  match d with
  | JObj kv => Ok (match assoc k kv with Some v => v | None => default end)
  | _ => Raise AttributeError
  end.

Definition py_get (d : json) (k : string) : result json :=
  py_get_default d k JNull.

(** [v == s] for a string literal [s]. *)
Definition json_eq_str (v : json) (s : string) : bool :=
  match v with
  | JStr s' => s' =? s
  | _ => false
  end.

(** ** Library functions and ambient values of one request

    None of these is defined in the repository: [hashlib.sha256(..).hexdigest()],
    [django.utils.dateparse], [uuid.UUID], [float], [str], the width check
    of the database backend, [timezone.now()] and [uuid.uuid4()]. *)
Record Env : Type := {
  sha256_hexdigest : string -> string;
  (** [Ok (Some t)]: parsed; [Ok None]: not well formatted;
      [Raise ValueError]: well formatted but not a valid date and time. *)
  parse_datetime : string -> result (option datetime);
  (** the date-only fallback of [DateTimeField.to_python] *)
  parse_date : string -> result (option datetime);
  parse_uuid : string -> option UUID;
  py_float : string -> option Q;
  (** [str(v)] of a value that is not already a string *)
  py_repr : json -> string;
  (** whether the backend refuses a string longer than its column *)
  enforce_width : bool;
  now : datetime;
  uuid4 : UUID
}.

(** ** Models *)

(** [devices/models.py] *)
Record Device : Type := {
  dev_id : UUID;
  serial_number : string;
  model : string;
  firmware_version : string;
  api_key : string;
  site : Z;
  last_seen : option datetime
}.

Record DeviceConfiguration : Type := {
  cfg_device : UUID;
  sampling_rates : json;
  thresholds : json;
  ntp_servers : json;
  endpoints : json
}.

Record FirmwareBundle : Type := {
  version : string;
  hash : string;
  channel : string;
  rollout_policy : string;
  supported_models : list string;
  release_notes : string;
  created_at : datetime
}.

(** [telemetry/models.py] *)
Inductive PacketStatus : Type := pending | processing | processed | failed.

Record TelemetryPacket : Type := {
  pkt_id : UUID;
  pkt_device : UUID;
  upload_id : UUID;
  checksum : string;
  pkt_status : PacketStatus;
  record_count : nat;
  processed_at : option datetime;
  pkt_error_message : string
}.

Record TelemetryPoint : Type := {
  pt_device : UUID;
  timestamp : datetime;
  metric : string;
  value : Q;
  unit : string;
  meta : json
}.

(** [events/models.py] *)
Inductive Severity : Type := low | medium | high | critical.
Inductive EventStatus : Type := active | acknowledged | resolved | suppressed.

Record SystemEvent : Type := {
  ev_id : UUID;
  ev_device : UUID;
  event_type : string;
  severity : Severity;
  description : string;
  status : EventStatus;
  resolved_at : option datetime;
  resolved_by : option Z;
  metadata : json
}.

(** The store: one list per table, in insertion order. *)
Record DB : Type := {
  devices : list Device;
  configurations : list DeviceConfiguration;
  firmware : list FirmwareBundle;
  packets : list TelemetryPacket;
  points : list TelemetryPoint;
  events : list SystemEvent
}.

(** ** Requests and responses *)

Record User : Type := {
  user_id : Z;
  is_authenticated : bool;
  sites : list Z
}.

Record Request : Type := {
  META : list (string * string);
  (** [request.data]; DRF raises [ParseError] on a body it cannot parse *)
  data : result json;
  (** [request.body]; raises once the stream has been consumed *)
  body : result string;
  user : User
}.

Inductive Body : Type :=
| BError (msg : string)
| BExc (e : exn)
| BCounts (accepted duplicates rejected : nat)
| BConfig (sampling thresh ntp endp : json)
| BAvailable (ver hsh download_url notes : string)
| BUnavailable (current_version : string)
| BReported
| BEvent (e : SystemEvent).

Record Response : Type := {
  resp_body : Body;
  status_code : nat
}.

Definition HTTP_200_OK := 200.
Definition HTTP_400_BAD_REQUEST := 400.
Definition HTTP_401_UNAUTHORIZED := 401.
Definition HTTP_404_NOT_FOUND := 404.
Definition HTTP_409_CONFLICT := 409.
Definition HTTP_500_INTERNAL_SERVER_ERROR := 500.

(** What the framework answers when a view lets an exception escape:
    DRF turns its own [ParseError] into a 400 and [Http404] into a 404,
    anything else is a server error. *)
Definition framework_response (e : exn) : Response :=
  match e with
  | ParseError => {| resp_body := BExc e; status_code := HTTP_400_BAD_REQUEST |}
  | Http404 => {| resp_body := BExc e; status_code := HTTP_404_NOT_FOUND |}
  | _ => {| resp_body := BExc e; status_code := HTTP_500_INTERNAL_SERVER_ERROR |}
  end.

(** ** The ORM, as the views use it *)

Section Views.

Variable env : Env.

Definition META_get (request : Request) (k : string) : option string :=
  assoc k (META request).

(** A [CharField(max_length=width)] column. *)
Definition column_fits (width : nat) (s : string) : bool :=
  negb (enforce_width env) || (String.length s <=? width)%nat.

(** [str(v)], as an f-string or a [CharField] applies it. *)
Definition py_str (v : json) : string :=
  match v with
  | JStr s => s
  | _ => py_repr env v
  end.

(** Saving a value into a [CharField] without [null=True]. *)
Definition CharField_save (width : nat) (v : json) : result string :=
  match v with
  | JNull => Raise IntegrityError
  | _ => if column_fits width (py_str v) then Ok (py_str v) else Raise DataError
  end.

(** Saving a value into a [FloatField] without [null=True]: [float(v)]. *)
Definition FloatField_save (v : json) : result Q :=
  match v with
  | JNull => Raise IntegrityError
  | JNum q => Ok q
  | JBool b => Ok (if b then 1%Q else 0%Q)
  | JStr s => match py_float env s with
              | Some q => Ok q
              | None => Raise ValueError
              end
  | JArr _ | JObj _ => Raise TypeError
  end.

(** Saving a value into a [JSONField] without [null=True]. *)
Definition JSONField_save (v : json) : result json :=
  match v with
  | JNull => Raise IntegrityError
  | _ => Ok v
  end.

(** [DateTimeField.to_python] on a value that is not yet a [datetime]:
    a string goes through [parse_datetime], then [parse_date]; any other
    value makes [parse_datetime] fail on its argument type. *)
Definition DateTimeField_to_python (v : json) : result (option datetime) :=
  match v with
  | JNull => Ok None
  | JStr s =>
      match parse_datetime env s with
      | Raise _ => Raise ValidationError
      | Ok (Some t) => Ok (Some t)
      | Ok None =>
          match parse_date env s with
          | Raise _ => Raise ValidationError
          | Ok (Some t) => Ok (Some t)
          | Ok None => Raise ValidationError
          end
      end
  | _ => Raise TypeError
  end.

(** The value bound to [ts_parsed]: a [datetime], or the item's own
    [timestamp] when that was neither a string nor [None]. *)
Inductive ts_value : Type :=
| TsDatetime (t : datetime)
| TsRaw (v : json).

Definition DateTimeField_save (ts : ts_value) : result datetime :=
  match ts with
  | TsDatetime t => Ok t
  | TsRaw v =>
      r <- DateTimeField_to_python v ;;
      match r with
      | Some t => Ok t
      | None => Raise IntegrityError
      end
  end.

(** [Device.objects.get(id=device_id, api_key=api_key)].  A [None] argument
    is an [IS NULL] test, which no row passes; a string that is not a UUID
    is refused when the query is built. *)
Definition Device_objects_get (db : DB) (device_id key : option string)
  : result Device :=
  match device_id with
  | None => Raise DoesNotExist
  | Some s =>
      match parse_uuid env s with
      | None => Raise ValidationError
      | Some u =>
          match key with
          | None => Raise DoesNotExist
          | Some k =>
              match filter (fun d => (dev_id d =? u)%N && (api_key d =? k)%string)
                           (devices db) with
              | [] => Raise DoesNotExist
              | [d] => Ok d
              | _ => Raise MultipleObjectsReturned
              end
          end
      end
  end.

(** [TelemetryPacket.objects.filter(device=device, upload_id=key).exists()] *)
Definition TelemetryPacket_exists (db : DB) (device : Device) (key : string)
  : result bool :=
  match parse_uuid env key with
  | None => Raise ValidationError
  | Some u =>
      Ok (existsb (fun p => (pkt_device p =? dev_id device)%N && (upload_id p =? u)%N)
                  (packets db))
  end.

(** [TelemetryPacket.objects.create(...)]: [Meta.unique_together] on
    (device, upload_id), [checksum] of width 128. *)
Definition TelemetryPacket_objects_create (db : DB) (device : Device)
  (key : string) (sum : string) (count : nat) : result (TelemetryPacket * DB) :=
  match parse_uuid env key with
  | None => Raise ValidationError
  | Some u =>
      if existsb (fun p => (pkt_device p =? dev_id device)%N && (upload_id p =? u)%N)
                 (packets db)
      then Raise IntegrityError
      else if column_fits 128 sum then
        let p := {| pkt_id := uuid4 env; pkt_device := dev_id device;
                    upload_id := u; checksum := sum; pkt_status := processing;
                    record_count := count; processed_at := None;
                    pkt_error_message := "" |} in
        Ok (p, {| devices := devices db; configurations := configurations db;
                  firmware := firmware db; packets := packets db ++ [p];
                  points := points db; events := events db |})
      else Raise DataError
  end.

(** [TelemetryPoint.objects.create(...)] *)
Definition TelemetryPoint_objects_create (device : Device) (ts : ts_value)
  (m v u mt : json) : result TelemetryPoint :=
  t <- DateTimeField_save ts ;;
  m' <- CharField_save 255 m ;;
  v' <- FloatField_save v ;;
  u' <- CharField_save 50 u ;;
  mt' <- JSONField_save mt ;;
  Ok {| pt_device := dev_id device; timestamp := t; metric := m';
        value := v'; unit := u'; meta := mt' |}.

(** [packet.save()] and [device.save()]: the row with the same primary key
    is overwritten. *)
Definition save_packet (p : TelemetryPacket) (db : DB) : DB :=
  {| devices := devices db; configurations := configurations db;
     firmware := firmware db;
     packets := map (fun q => if (pkt_id q =? pkt_id p)%N then p else q) (packets db);
     points := points db; events := events db |}.

Definition save_device (d : Device) (db : DB) : DB :=
  {| devices := map (fun q => if (dev_id q =? dev_id d)%N then d else q) (devices db);
     configurations := configurations db; firmware := firmware db;
     packets := packets db; points := points db; events := events db |}.

Definition add_point (p : TelemetryPoint) (db : DB) : DB :=
  {| devices := devices db; configurations := configurations db;
     firmware := firmware db; packets := packets db;
     points := points db ++ [p]; events := events db |}.

Definition add_event (e : SystemEvent) (db : DB) : DB :=
  {| devices := devices db; configurations := configurations db;
     firmware := firmware db; packets := packets db;
     points := points db; events := events db ++ [e] |}.

(** ** [iot/views.py] *)

Definition respond (b : Body) (code : nat) : Response :=
  {| resp_body := b; status_code := code |}.

Definition or_empty (v : option string) : string :=
  match v with
  | Some s => s
  | None => ""
  end.

(** The timestamp of one item, lines 106-112: a string is parsed, a missing
    or unreadable one becomes the ingestion time, anything else is passed
    on as it is. *)
Definition parse_timestamp (ts : json) : result ts_value :=
  match ts with
  | JStr s =>
      r <- parse_datetime env s ;;
      Ok (match r with
          | Some t => TsDatetime t
          | None => TsDatetime (now env)
          end)
  | JNull => Ok (TsDatetime (now env))
  | _ => Ok (TsRaw ts)
  end.

(** The body of the [try] of the loop, lines 105-120. *)
Definition process_item (device : Device) (item : json) : result TelemetryPoint :=
  ts <- py_get item "timestamp" ;;
  ts_parsed <- parse_timestamp ts ;;
  m <- py_get item "metric" ;;
  v <- py_get item "value" ;;
  u <- py_get_default item "unit" (JStr "") ;;
  mt <- py_get_default item "meta" (JObj []) ;;
  TelemetryPoint_objects_create device ts_parsed m v u mt.

(** The loop, lines 100-123: an item whose creation raises is counted and
    the loop goes on. *)
Fixpoint process_batch (device : Device) (items : list json) (db : DB)
  (accepted rejected : nat) : DB * nat * nat :=
  match items with
  | [] => (db, accepted, rejected)
  | item :: rest =>
      match process_item device item with
      | Ok p => process_batch device rest (add_point p db) (S accepted) rejected
      | Raise _ => process_batch device rest db accepted (S rejected)
      end
  end.

(** Lines 78-88: the hash is compared only when the header is there, and a
    failure to read the raw body is swallowed. *)
Definition content_hash_mismatch (request : Request) (content_sha256 : option string)
  : bool :=
  if truthy content_sha256 then
    match body request with
    | Ok raw_body => negb (sha256_hexdigest env raw_body =? or_empty content_sha256)
    | Raise _ => false
    end
  else false.

Definition telemetry_batch_try (request : Request) (db : DB)
  : result (Response * DB) :=
  let device_id := META_get request "HTTP_X_DEVICE_ID" in
  let key := py_or (META_get request "HTTP_X_AUTH_KEY")
                   (META_get request "HTTP_X_API_KEY") in
  let idempotency_key := META_get request "HTTP_IDEMPOTENCY_KEY" in
  let content_sha256 := META_get request "HTTP_CONTENT_SHA256" in
  if negb (truthy device_id && truthy idempotency_key) then
    Ok (respond (BError "Missing required headers") HTTP_400_BAD_REQUEST, db)
  else
    match Device_objects_get db device_id key with
    | Raise DoesNotExist =>
        Ok (respond (BError "Device not found or invalid API key")
                    HTTP_401_UNAUTHORIZED, db)
    | Raise e => Raise e
    | Ok device =>
        dup <- TelemetryPacket_exists db device (or_empty idempotency_key) ;;
        if dup : bool then
          Ok (respond (BCounts 0 1 0) HTTP_409_CONFLICT, db)
        else
          batch_data <- data request ;;
          match batch_data with
          | JArr items =>
              if content_hash_mismatch request content_sha256 then
                Ok (respond (BError "Content-SHA256 mismatch") HTTP_400_BAD_REQUEST, db)
              else
                created <- TelemetryPacket_objects_create db device
                             (or_empty idempotency_key)
                             (or_empty (py_or content_sha256 (Some "")))
                             (List.length items) ;;
                let '(packet, db1) := created in
                let '(db2, accepted, rejected) :=
                  process_batch device items db1 0 0 in
                let packet' :=
                  {| pkt_id := pkt_id packet; pkt_device := pkt_device packet;
                     upload_id := upload_id packet; checksum := checksum packet;
                     pkt_status := processed; record_count := accepted;
                     processed_at := Some (now env);
                     pkt_error_message := pkt_error_message packet |} in
                let db3 := save_packet packet' db2 in
                let device' :=
                  {| dev_id := dev_id device; serial_number := serial_number device;
                     model := model device;
                     firmware_version := firmware_version device;
                     api_key := api_key device; site := site device;
                     last_seen := Some (now env) |} in
                let db4 := save_device device' db3 in
                Ok (respond (BCounts accepted 0 rejected) HTTP_200_OK, db4)
          | _ =>
              Ok (respond (BError "Batch data must be a list") HTTP_400_BAD_REQUEST, db)
          end
    end.

(** The outer [except Exception], lines 141-145. *)
Definition telemetry_batch (request : Request) (db : DB) : Response * DB :=
  match telemetry_batch_try request db with
  | Ok r => r
  | Raise e => (respond (BExc e) HTTP_500_INTERNAL_SERVER_ERROR, db)
  end.

Definition request_device (request : Request) (db : DB) : result Device :=
  Device_objects_get db (META_get request "HTTP_X_DEVICE_ID")
    (py_or (META_get request "HTTP_X_AUTH_KEY") (META_get request "HTTP_X_API_KEY")).

Definition device_not_found : Response :=
  respond (BError "Device not found") HTTP_404_NOT_FOUND.

Definition get_config (request : Request) (db : DB) : Response * DB :=
  match request_device request db with
  | Ok device =>
      match find (fun c => (cfg_device c =? dev_id device)%N) (configurations db) with
      | Some config =>
          (respond (BConfig (sampling_rates config) (thresholds config)
                            (ntp_servers config) (endpoints config)) HTTP_200_OK, db)
      | None =>
          (respond (BConfig (JObj []) (JObj []) (JArr []) (JObj [])) HTTP_200_OK, db)
      end
  | Raise DoesNotExist => (device_not_found, db)
  | Raise e => (framework_response e, db)
  end.

(** [s.split('.')[0]]: the part of [s] before its first dot. *)
Fixpoint split_dot_head (s : string) : string :=
  match s with
  | EmptyString => EmptyString
  | String c rest => if Ascii.eqb c "." then EmptyString
                     else String c (split_dot_head rest)
  end.

(** The filter of lines 192-195. *)
Definition firmware_matches (device : Device) (b : FirmwareBundle) : bool :=
  existsb (String.eqb (model device)) (supported_models b)
  && existsb (String.eqb (channel b))
       ["stable"; split_dot_head (firmware_version device)].

(** [order_by('-created_at')] *)
Fixpoint insert_by_created_at (b : FirmwareBundle) (l : list FirmwareBundle)
  : list FirmwareBundle :=
  match l with
  | [] => [b]
  | x :: rest => if (created_at x <=? created_at b)%Z then b :: x :: rest
                 else x :: insert_by_created_at b rest
  end.

Fixpoint order_by_created_at_desc (l : list FirmwareBundle) : list FirmwareBundle :=
  match l with
  | [] => []
  | x :: rest => insert_by_created_at x (order_by_created_at_desc rest)
  end.

Definition latest_firmware (db : DB) (device : Device) : option FirmwareBundle :=
  hd_error (order_by_created_at_desc (filter (firmware_matches device) (firmware db))).

Definition ota_check (request : Request) (db : DB) : Response * DB :=
  match request_device request db with
  | Ok device =>
      match latest_firmware db device with
      | Some fw =>
          if negb (version fw =? firmware_version device) then
            (respond (BAvailable (version fw) (hash fw)
                        ("/api/firmware/" ++ version fw ++ "/download/")
                        (release_notes fw)) HTTP_200_OK, db)
          else
            (respond (BUnavailable (firmware_version device)) HTTP_200_OK, db)
      | None => (respond (BUnavailable (firmware_version device)) HTTP_200_OK, db)
      end
  | Raise DoesNotExist => (device_not_found, db)
  | Raise e => (framework_response e, db)
  end.

(** [SystemEvent.objects.create(...)] of lines 238-247; [event_type] is a
    column of width 255. *)
Definition SystemEvent_objects_create (device : Device) (etype : string)
  (sev : Severity) (descr : string) (md : json) : result SystemEvent :=
  if column_fits 255 etype then
    Ok {| ev_id := uuid4 env; ev_device := dev_id device; event_type := etype;
          severity := sev; description := descr; status := active;
          resolved_at := None; resolved_by := None; metadata := md |}
  else Raise DataError.

Definition ota_severity (status_update : json) : Severity :=
  if json_eq_str status_update "failed" || json_eq_str status_update "rollback"
  then high else low.

(** Lines 228-247: the fields read from the body and the event built from
    them. *)
Definition ota_event (device : Device) (d : json) : result (SystemEvent * json * json) :=
  status_update <- py_get d "status" ;;
  ver <- py_get d "version" ;;
  error_message <- py_get_default d "error" (JStr "") ;;
  ev <- SystemEvent_objects_create device
          ("ota_" ++ py_str status_update)
          (ota_severity status_update)
          ("OTA update " ++ py_str status_update ++ ": " ++ py_str ver)
          (JObj [("ota_version", ver); ("error", error_message)]) ;;
  Ok (ev, status_update, ver).

Definition escaped (e : exn) : Response :=
  match e with
  | DoesNotExist => device_not_found
  | _ => framework_response e
  end.

Definition ota_report (request : Request) (db : DB) : Response * DB :=
  match request_device request db with
  | Raise e => (escaped e, db)
  | Ok device =>
      match d <- data request ;; ota_event device d with
      | Raise e => (escaped e, db)
      | Ok (ev, status_update, ver) =>
          let db1 := add_event ev db in
          if json_eq_str status_update "completed" && json_truthy ver then
            match CharField_save 100 ver with
            | Raise e => (escaped e, db1)
            | Ok v =>
                let device' :=
                  {| dev_id := dev_id device; serial_number := serial_number device;
                     model := model device; firmware_version := v;
                     api_key := api_key device; site := site device;
                     last_seen := last_seen device |} in
                (respond BReported HTTP_200_OK, save_device device' db1)
            end
          else (respond BReported HTTP_200_OK, db1)
      end
  end.

(** ** [events/views.py] *)

Definition device_site (db : DB) (dev : UUID) : option Z :=
  option_map site (find (fun d => (dev_id d =? dev)%N) (devices db)).

(** [SystemEventViewSet.get_queryset] *)
Definition get_queryset (request : Request) (db : DB) : list SystemEvent :=
  if is_authenticated (user request) then
    filter (fun e => match device_site db (ev_device e) with
                     | Some s => existsb (Z.eqb s) (sites (user request))
                     | None => false
                     end) (events db)
  else [].

Definition get_object (request : Request) (pk : UUID) (db : DB) : result SystemEvent :=
  match find (fun e => (ev_id e =? pk)%N) (get_queryset request db) with
  | Some e => Ok e
  | None => Raise Http404
  end.

Definition save_event (e : SystemEvent) (db : DB) : DB :=
  {| devices := devices db; configurations := configurations db;
     firmware := firmware db; packets := packets db; points := points db;
     events := map (fun q => if (ev_id q =? ev_id e)%N then e else q) (events db) |}.

(** The assignments of [acknowledge] and [resolve] on the loaded event. *)
Definition set_acknowledged (e : SystemEvent) : SystemEvent :=
  {| ev_id := ev_id e; ev_device := ev_device e; event_type := event_type e;
     severity := severity e; description := description e;
     status := acknowledged;
     resolved_at := resolved_at e; resolved_by := resolved_by e;
     metadata := metadata e |}.

Definition set_resolved (at_ : option datetime) (by_ : Z) (e : SystemEvent)
  : SystemEvent :=
  {| ev_id := ev_id e; ev_device := ev_device e; event_type := event_type e;
     severity := severity e; description := description e;
     status := resolved;
     resolved_at := at_; resolved_by := Some by_;
     metadata := metadata e |}.

Definition acknowledge (request : Request) (pk : UUID) (db : DB) : Response * DB :=
  match get_object request pk db with
  | Raise e => (framework_response e, db)
  | Ok event =>
      let event' := set_acknowledged event in
      (respond (BEvent event') HTTP_200_OK, save_event event' db)
  end.

Definition resolve (request : Request) (pk : UUID) (db : DB) : Response * DB :=
  match get_object request pk db with
  | Raise e => (framework_response e, db)
  | Ok event =>
      match d <- data request ;;
            ra <- py_get d "resolved_at" ;;
            DateTimeField_to_python ra with
      | Raise e => (framework_response e, db)
      | Ok at_ =>
          let event' := set_resolved at_ (user_id (user request)) event in
          (respond (BEvent event') HTTP_200_OK, save_event event' db)
      end
  end.

End Views.

(** ** Resolution fields of an event *)



(** ** Recency of firmware bundles *)

(** The head of a list is at least as recent as every element. *)
Definition head_is_latest (l : list FirmwareBundle) : Prop :=
  forall h, hd_error l = Some h ->
    forall x, In x l -> (created_at x <= created_at h)%Z.

(** ** Device identity, as the specification speaks of it *)

(** The credential a request presents. *)
Definition presented_key (request : Request) : option string :=
  py_or (META_get request "HTTP_X_AUTH_KEY") (META_get request "HTTP_X_API_KEY").

(** No device row has both the identifier and the presented credential:
    the identifier is unknown, or it is known and the credential differs. *)
Definition no_matching_device (db : DB) (u : UUID) (key : option string) : Prop :=
  forall d, In d (devices db) -> dev_id d = u -> key <> Some (api_key d).

(** ** Readings of a batch, as the specification speaks of them *)

(** The value under a key of a reading, [JNull] when the key is absent or
    the item is no object. *)
Definition field (item : json) (k : string) : json :=
  match item with
  | JObj kv => match assoc k kv with
               | Some v => v
               | None => JNull
               end
  | _ => JNull
  end.



(** A timestamp that is missing, or a string the parser finds not well
    formatted. *)
Definition timestamp_missing_or_unreadable (env : Env) (ts : json) : bool :=
  match ts with
  | JNull => true
  | JStr s => match parse_datetime env s with
              | Ok None => true
              | _ => false
              end
  | _ => false
  end.


(** A timestamp that is neither missing nor a string, such as a number of
    seconds. *)
Definition timestamp_not_a_string (ts : json) : bool :=
  match ts with
  | JNull | JStr _ => false
  | _ => true
  end.

(** Whether the loop stores the item, and the rows it stores for a batch. *)
Definition stored (env : Env) (device : Device) (item : json) : bool :=
  match process_item env device item with
  | Ok _ => true
  | Raise _ => false
  end.

Definition stored_points (env : Env) (device : Device) (items : list json)
  : list TelemetryPoint :=
  flat_map (fun item => match process_item env device item with
                        | Ok p => [p]
                        | Raise _ => []
                        end) items.

Definition count {A} (f : A -> bool) (l : list A) : nat :=
  List.length (filter f l).

(** ** Sequences of operator actions on events *)

Inductive EventCall : Type :=
| CallAcknowledge (request : Request) (pk : UUID)
| CallResolve (request : Request) (pk : UUID).

Definition run_call (env : Env) (c : EventCall) (db : DB) : DB :=
  match c with
  | CallAcknowledge request pk => snd (acknowledge request pk db)
  | CallResolve request pk => snd (resolve env request pk db)
  end.

Fixpoint run_calls (env : Env) (cs : list EventCall) (db : DB) : DB :=
  match cs with
  | [] => db
  | c :: rest => run_calls env rest (run_call env c db)
  end.


(** ** Version order of the specification

    "Strictly exceeds" on dotted numeric versions, component by component.
    The views never compare versions this way; the definition is what the
    invariant of the data model is measured against. *)
Fixpoint version_numbers (s : string) (cur : N) : list N :=
  match s with
  | EmptyString => [cur]
  | String c rest =>
      if Ascii.eqb c "." then cur :: version_numbers rest 0%N
      else version_numbers rest (cur * 10 + (N_of_ascii c - 48))%N
  end.

Fixpoint numbers_lt (a b : list N) : bool :=
  match a, b with
  | [], [] => false
  | [], _ :: _ => true
  | _ :: _, [] => false
  | x :: a', y :: b' => (x <? y)%N || ((x =? y)%N && numbers_lt a' b')
  end.

Definition version_exceeds_spec (v current : string) : bool :=
  numbers_lt (version_numbers current 0%N) (version_numbers v 0%N).

(** ** The notification dispatcher *)
Module Dispatcher.

(** [events/models.py], [NotificationQueue] *)
Inductive NotificationStatus : Type := pending | sent | failed | retry.

Record NotificationQueue : Type := {
  alert_rule : Z;
  event : UUID;
  recipients : json;
  channel : string;
  status : NotificationStatus;
  retry_count : nat;
  max_retries : nat;
  next_retry_at : option datetime;
  sent_at : option datetime;
  error_message : string
}.

(** A row as the model's defaults create it. *)
Definition fresh (rule : Z) (ev : UUID) (rcpt : json) (ch : string) (limit : nat)
  : NotificationQueue :=
  {| alert_rule := rule; event := ev; recipients := rcpt; channel := ch;
     status := pending; retry_count := 0; max_retries := limit;
     next_retry_at := None; sent_at := None; error_message := "" |}.

(** Modelled from the spec: the backoff of section 4.4, which the
    repository does not implement: a base interval doubling per attempt,
    capped at a maximum interval, plus jitter.  The constants are left to
    the policy. *)
Record BackoffPolicy : Type := {
  base_interval : Z;
  max_interval : Z;
  jitter : nat -> Z
}.

(** Modelled from the spec: what section 4.4 asks of the constants, left
    open there: positive intervals and a jitter that never shortens the
    delay. *)
Definition policy_ok (p : BackoffPolicy) : Prop :=
  (0 < base_interval p)%Z /\ (0 < max_interval p)%Z
  /\ forall k, (0 <= jitter p k)%Z.

(** Modelled from the spec: the delay before attempt [attempt_no + 1],
    the base interval doubled per attempt already made, capped, plus
    jitter. *)
Definition backoff (p : BackoffPolicy) (attempt_no : nat) : Z :=
  (Z.min (max_interval p) (base_interval p * 2 ^ Z.of_nat (attempt_no - 1))
   + jitter p attempt_no)%Z.

Inductive Outcome : Type :=
| Delivered
| TransientFailure
| PermanentFailure (err : string).

(** Modelled from the spec: the poll condition of section 4.4, rows in
    pending, or in retry with next_retry_at <= now. *)
Definition due (t : datetime) (n : NotificationQueue) : bool :=
  match status n with
  | pending => true
  | retry => match next_retry_at n with
             | Some t' => (t' <=? t)%Z
             | None => false
             end
  | _ => false
  end.

Definition set_delivery (n : NotificationQueue) (st : NotificationStatus)
  (count : nat) (next : option datetime) (at_ : option datetime) (err : string)
  : NotificationQueue :=
  {| alert_rule := alert_rule n; event := event n; recipients := recipients n;
     channel := channel n; status := st; retry_count := count;
     max_retries := max_retries n; next_retry_at := next; sent_at := at_;
     error_message := err |}.

(** Modelled from the spec: one delivery attempt of the dispatcher of
    section 4.4, which the repository does not implement.  Success: sent,
    sent-at stamped.  Transient failure: retry_count is incremented; below
    max_retries the row goes to retry with a backoff; at max_retries it
    goes to failed; the specification names no third case, and the row then
    keeps its status.  Permanent failure: failed at once, the error
    recorded.  A row that is not polled is not touched. *)
Definition attempt (p : BackoffPolicy) (t : datetime) (o : Outcome)
  (n : NotificationQueue) : NotificationQueue :=
  if due t n then
    match o with
    | Delivered =>
        set_delivery n sent (retry_count n) (next_retry_at n) (Some t)
                     (error_message n)
    | TransientFailure =>
        let c := S (retry_count n) in
        if (c <? max_retries n)%nat then
          set_delivery n retry c (Some (t + backoff p c)%Z) (sent_at n)
                       (error_message n)
        else if (c =? max_retries n)%nat then
          set_delivery n failed c (next_retry_at n) (sent_at n) (error_message n)
        else
          set_delivery n (status n) c (next_retry_at n) (sent_at n)
                       (error_message n)
    | PermanentFailure err =>
        set_delivery n failed (retry_count n) (next_retry_at n) (sent_at n) err
    end
  else n.

(** The worker over time: one row, a list of polls with what the delivery
    did at each. *)
Fixpoint run (p : BackoffPolicy) (polls : list (datetime * Outcome))
  (n : NotificationQueue) : NotificationQueue :=
  match polls with
  | [] => n
  | (t, o) :: rest => run p rest (attempt p t o n)
  end.

(** Every poll of the list finds the row due. *)
Fixpoint all_due (p : BackoffPolicy) (polls : list (datetime * Outcome))
  (n : NotificationQueue) : bool :=
  match polls with
  | [] => true
  | (t, o) :: rest => due t n && all_due p rest (attempt p t o n)
  end.

Definition transient_only (polls : list (datetime * Outcome)) : bool :=
  forallb (fun x => match snd x with TransientFailure => true | _ => false end)
          polls.

(** [k] polls that each come when the row is due and each fail
    transiently. *)
Fixpoint due_schedule (p : BackoffPolicy) (k : nat) (n : NotificationQueue)
  : list (datetime * Outcome) :=
  match k with
  | 0 => []
  | S k' =>
      let t := match next_retry_at n with
               | Some t' => t'
               | None => 0%Z
               end in
      (t, TransientFailure) :: due_schedule p k' (attempt p t TransientFailure n)
  end.

(** The rows the dispatcher can meet: a row still to be delivered has
    retries left, and a row in retry has its next time. *)
Definition in_bounds (n : NotificationQueue) : Prop :=
  retry_count n <= max_retries n
  /\ (status n = pending \/ status n = retry -> retry_count n < max_retries n)
  /\ (status n = retry -> next_retry_at n <> None).

Definition sample_policy : BackoffPolicy :=
  {| base_interval := 60%Z; max_interval := 3600%Z; jitter := fun _ => 0%Z |}.

End Dispatcher.

(** ** A concrete environment for evaluating the views

    Stand-ins for the library functions, enough to run the views on small
    stores: identifiers are written as decimal numerals, the digest is a
    tagged copy of its argument and two timestamps are known to the
    parser. *)
Module Sample.

Fixpoint digits (s : string) (acc : N) : option N :=
  match s with
  | EmptyString => Some acc
  | String c rest =>
      let n := N_of_ascii c in
      if ((48 <=? n) && (n <=? 57))%N then digits rest (acc * 10 + (n - 48))%N
      else None
  end.

Definition uuid_of_string (s : string) : option UUID :=
  match s with
  | EmptyString => None
  | _ => digits s 0%N
  end.

Definition repr (v : json) : string :=
  match v with
  | JNull => "None"
  | JBool true => "True"
  | JBool false => "False"
  | JStr s => s
  | JNum _ => "<number>"
  | JArr _ => "<list>"
  | JObj _ => "<dict>"
  end.

Definition env : Env :=
  {| sha256_hexdigest := fun raw => "digest-of:" ++ raw;
     parse_datetime := fun s =>
       if s =? "2024-01-01T00:00:00Z" then Ok (Some 1704067200%Z)
       else if s =? "2024-02-30T00:00:00Z" then Raise ValueError
       else Ok None;
     parse_date := fun _ => Ok None;
     parse_uuid := uuid_of_string;
     py_float := fun _ => None;
     py_repr := repr;
     enforce_width := true;
     now := 1735689600%Z;
     uuid4 := 4242%N |}.

Definition device_D : Device :=
  {| dev_id := 1%N; serial_number := "SN-0001"; model := "X1";
     firmware_version := "1.0.0"; api_key := "key-D"; site := 7%Z;
     last_seen := None |}.

Definition empty_db : DB :=
  {| devices := [device_D]; configurations := []; firmware := [];
     packets := []; points := []; events := [] |}.

Definition anonymous : User :=
  {| user_id := 0%Z; is_authenticated := false; sites := [] |}.

Definition operator : User :=
  {| user_id := 5%Z; is_authenticated := true; sites := [7%Z] |}.

(** A device request with the four headers of the batch endpoint. *)
Definition device_request (dev key idem : string) (sha : option string)
  (d : result json) (raw : result string) : Request :=
  {| META := [("HTTP_X_DEVICE_ID", dev); ("HTTP_X_AUTH_KEY", key);
              ("HTTP_IDEMPOTENCY_KEY", idem)]
             ++ match sha with
                | Some h => [("HTTP_CONTENT_SHA256", h)]
                | None => []
                end;
     data := d; body := raw; user := anonymous |}.

(** The batch of the end-to-end scenario of the specification. *)
Definition batch_abc : json :=
  JArr [JObj [("timestamp", JStr "2024-01-01T00:00:00Z"); ("metric", JStr "temp");
              ("value", JNum (43 # 2))];
        JObj [("metric", JStr "temp")]].

Definition request_abc : Request :=
  device_request "1" "key-D" "77" None (Ok batch_abc) (Ok "[..]").

(** The store after the first submission of [request_abc]. *)
Definition db_abc : DB :=
  Eval vm_compute in snd (telemetry_batch env request_abc empty_db).

(** A resubmission under the same key whose body is no list and whose
    declared hash does not match. *)
Definition request_abc_broken : Request :=
  device_request "1" "key-D" "77" (Some "00") (Ok (JObj [])) (Ok "{}").

(** A first submission under a fresh key with a wrong hash. *)
Definition request_bad_hash : Request :=
  device_request "1" "key-D" "78" (Some "00") (Ok batch_abc) (Ok "[..]").



(** Requests of a known device with a wrong credential and of an unknown
    device. *)
Definition request_wrong_key : Request :=
  device_request "1" "not-the-key" "80" None (Ok (JArr [])) (Ok "[]").

Definition request_unknown_device : Request :=
  device_request "2" "key-D" "80" None (Ok (JArr [])) (Ok "[]").

(** An OTA report of a completed update to 1.2.0. *)
Definition request_ota_completed : Request :=
  device_request "1" "key-D" "" None
    (Ok (JObj [("status", JStr "completed"); ("version", JStr "1.2.0")])) (Ok "{}").

(** A second device already at 1.2.0, and two stable bundles for model X1. *)
Definition device_E : Device :=
  {| dev_id := 3%N; serial_number := "SN-0003"; model := "X1";
     firmware_version := "1.2.0"; api_key := "key-E"; site := 7%Z;
     last_seen := None |}.

Definition bundle_100 : FirmwareBundle :=
  {| version := "1.0.0"; hash := "h100"; channel := "stable";
     rollout_policy := "staged"; supported_models := ["X1"];
     release_notes := "first release"; created_at := 100%Z |}.

Definition bundle_120 : FirmwareBundle :=
  {| version := "1.2.0"; hash := "h120"; channel := "stable";
     rollout_policy := "staged"; supported_models := ["X1"; "X2"];
     release_notes := "fixes"; created_at := 200%Z |}.

Definition db_ota : DB :=
  {| devices := [device_D; device_E]; configurations := [];
     firmware := [bundle_100; bundle_120];
     packets := []; points := []; events := [] |}.

(** The same devices when only the older bundle has been published. *)
Definition db_old_bundle : DB :=
  {| devices := [device_D; device_E]; configurations := [];
     firmware := [bundle_100];
     packets := []; points := []; events := [] |}.

Definition request_ota_D : Request :=
  device_request "1" "key-D" "" None (Ok JNull) (Ok "").

Definition request_ota_E : Request :=
  device_request "3" "key-E" "" None (Ok JNull) (Ok "").

(** Two events of device D: one resolved by the operator, one active. *)
Definition event_resolved : SystemEvent :=
  {| ev_id := 9%N; ev_device := 1%N; event_type := "ota_failed";
     severity := high; description := "OTA update failed: 1.2.0";
     status := resolved; resolved_at := Some 50%Z; resolved_by := Some 5%Z;
     metadata := JObj [] |}.

Definition event_active : SystemEvent :=
  {| ev_id := 10%N; ev_device := 1%N; event_type := "ota_completed";
     severity := low; description := "OTA update completed: 1.2.0";
     status := active; resolved_at := None; resolved_by := None;
     metadata := JObj [] |}.

Definition db_events : DB :=
  {| devices := [device_D]; configurations := []; firmware := [];
     packets := []; points := []; events := [event_resolved; event_active] |}.

(** A request of the operator with an empty body. *)
Definition operator_request : Request :=
  {| META := []; data := Ok (JObj []); body := Ok ""; user := operator |}.

End Sample.


(** ** Further views and helpers *)

(** The store a successful batch leaves: the ledger row of the upload, set
    to processed with the accepted count, the rows of the stored readings
    appended, and the device's last-seen time stamped. *)
Definition ingested (env : Env) (request : Request) (db : DB) (device : Device)
  (u : UUID) (items : list json) : DB :=
  save_device
    {| dev_id := dev_id device; serial_number := serial_number device;
       model := model device; firmware_version := firmware_version device;
       api_key := api_key device; site := site device;
       last_seen := Some (now env) |}
    (save_packet
       {| pkt_id := uuid4 env; pkt_device := dev_id device; upload_id := u;
          checksum := or_empty (META_get request "HTTP_CONTENT_SHA256");
          pkt_status := processed;
          record_count := count (stored env device) items;
          processed_at := Some (now env); pkt_error_message := "" |}
       {| devices := devices db; configurations := configurations db;
          firmware := firmware db;
          packets := packets db ++
            [{| pkt_id := uuid4 env; pkt_device := dev_id device; upload_id := u;
                checksum := or_empty (META_get request "HTTP_CONTENT_SHA256");
                pkt_status := processing; record_count := List.length items;
                processed_at := None; pkt_error_message := "" |}];
          points := points db ++ stored_points env device items;
          events := events db |}).

(** Primary keys and the ledger's [unique_together]. *)
Definition device_ids_unique (db : DB) : Prop :=
  NoDup (map dev_id (devices db)).

Definition event_ids_unique (db : DB) : Prop :=
  NoDup (map ev_id (events db)).

Definition ledger_key (p : TelemetryPacket) : UUID * UUID :=
  (pkt_device p, upload_id p).

Definition ledger_unique (db : DB) : Prop :=
  NoDup (map ledger_key (packets db)).

(** What a device row keeps when a view saves it. *)
Definition device_identity (d : Device) : UUID * string * string * string * Z :=
  (dev_id d, serial_number d, model d, api_key d, site d).

(** What an event row keeps when an operator acts on it. *)
Definition event_facts (e : SystemEvent)
  : UUID * UUID * string * Severity * string * json :=
  (ev_id e, ev_device e, event_type e, severity e, description e, metadata e).

(** [telemetry/views.py]: [TelemetryPointViewSet.get_queryset], lines
    40-46. *)
Definition site_visible (request : Request) (db : DB) (dev : UUID) : bool :=
  match device_site db dev with
  | Some s => existsb (Z.eqb s) (sites (user request))
  | None => false
  end.

Definition TelemetryPoint_get_queryset (request : Request) (db : DB)
  : list TelemetryPoint :=
  if is_authenticated (user request) then
    filter (fun p => site_visible request db (pt_device p)) (points db)
  else [].

(** [assets/models.py] and [events/models.py], as far as the rule and
    notification views read them. *)
Record Asset : Type := {
  asset_pk : UUID;
  asset_id : string;
  asset_site : Z
}.

Record AlertRule : Type := {
  rule_pk : Z;
  rule_name : string;
  rule_device : option UUID;
  rule_asset : option UUID;
  rule_event_type : string;
  rule_is_active : bool;
  cooldown_minutes : nat
}.

Definition asset_site_of (assets : list Asset) (a : UUID) : option Z :=
  option_map asset_site (find (fun x => (asset_pk x =? a)%N) assets).

(** The three conditions of [AlertRuleViewSet.get_queryset], lines 64-66. *)
Definition rule_device_visible (request : Request) (db : DB) (r : AlertRule) : bool :=
  match rule_device r with
  | Some d => site_visible request db d
  | None => false
  end.

Definition rule_asset_visible (request : Request) (assets : list Asset)
  (r : AlertRule) : bool :=
  match rule_asset r with
  | Some a => match asset_site_of assets a with
              | Some s => existsb (Z.eqb s) (sites (user request))
              | None => false
              end
  | None => false
  end.

Definition rule_global (r : AlertRule) : bool :=
  match rule_device r, rule_asset r with
  | None, None => true
  | _, _ => false
  end.

(** [AlertRuleViewSet.get_queryset]: the union of the three querysets. *)
Definition AlertRule_get_queryset (request : Request) (db : DB)
  (assets : list Asset) (rules : list AlertRule) : list AlertRule :=
  if is_authenticated (user request) then
    filter (fun r => rule_device_visible request db r
                     || rule_asset_visible request assets r
                     || rule_global r) rules
  else [].

(** [NotificationQueueViewSet.get_queryset], lines 78-86: the union of two
    querysets, both through the notification's rule. *)
Definition NotificationQueue_get_queryset (request : Request) (db : DB)
  (assets : list Asset) (rules : list AlertRule)
  (queue : list Dispatcher.NotificationQueue) : list Dispatcher.NotificationQueue :=
  if is_authenticated (user request) then
    filter (fun n =>
              match find (fun r => (rule_pk r =? Dispatcher.alert_rule n)%Z) rules with
              | Some r => rule_device_visible request db r
                          || rule_asset_visible request assets r
              | None => false
              end) queue
  else [].

(** ** [devices/auth.py] *)



(** [APIKeyAuthentication.get_api_key], lines 28-42.  [setting] is the
    value of [settings.API_KEY_CUSTOM_HEADER], [None] when it is not
    defined. *)
Definition get_api_key (setting : option string) (request : Request)
  : option string :=
  let custom_header := match setting with
                       | Some h => h
                       | None => "HTTP_X_API_KEY"
                       end in
  let api_key := META_get request custom_header in
  if truthy api_key then api_key
  else
    let auth := or_empty (META_get request "HTTP_AUTHORIZATION") in
    if String.prefix "Api-Key " auth
    then Some (substring 8 (String.length auth - 8) auth)
    else None.


(** ** [tools/sync_bom_data.py]: [slugify]

    A name is taken as its list of characters, all of them ASCII: on other
    characters [str.lower] and [str.strip] follow the Unicode tables. *)

Definition is_ascii (c : ascii) : bool := (nat_of_ascii c <? 128)%nat.

Definition is_digit (c : ascii) : bool :=
  ((48 <=? nat_of_ascii c) && (nat_of_ascii c <=? 57))%nat.

Definition is_upper (c : ascii) : bool :=
  ((65 <=? nat_of_ascii c) && (nat_of_ascii c <=? 90))%nat.

Definition is_lower (c : ascii) : bool :=
  ((97 <=? nat_of_ascii c) && (nat_of_ascii c <=? 122))%nat.

(** The class [a-zA-Z0-9]. *)
Definition is_alnum (c : ascii) : bool := is_lower c || is_upper c || is_digit c.

Definition is_hyphen (c : ascii) : bool := Ascii.eqb c "-".

(** [str.isspace] on an ASCII character. *)
Definition is_space (c : ascii) : bool :=
  let n := nat_of_ascii c in
  ((9 <=? n) && (n <=? 13) || (28 <=? n) && (n <=? 32))%nat.

(** [str.lower] on an ASCII character. *)
Definition lower_char (c : ascii) : ascii :=
  if is_upper c then ascii_of_nat (nat_of_ascii c + 32) else c.

Fixpoint lstrip (f : ascii -> bool) (l : list ascii) : list ascii :=
  match l with
  | [] => []
  | c :: rest => if f c then lstrip f rest else l
  end.

Fixpoint rstrip (f : ascii -> bool) (l : list ascii) : list ascii :=
  match l with
  | [] => []
  | c :: rest =>
      match rstrip f rest with
      | [] => if f c then [] else [c]
      | kept => c :: kept
      end
  end.

(** [s.strip()] and [s.strip("-")] *)
Definition strip (f : ascii -> bool) (l : list ascii) : list ascii :=
  rstrip f (lstrip f l).

(** [re.sub(r"[...]+", "-", s)]: every maximal run of characters of the
    class becomes one hyphen.  [in_run] tells that the run has already been
    replaced. *)
Fixpoint sub_runs (cls : ascii -> bool) (in_run : bool) (l : list ascii)
  : list ascii :=
  match l with
  | [] => []
  | c :: rest =>
      if cls c then
        if in_run then sub_runs cls true rest
        else "-"%char :: sub_runs cls true rest
      else c :: sub_runs cls false rest
  end.

Definition slugify (name : list ascii) : list ascii :=
  let slug := sub_runs (fun c => negb (is_alnum c)) false
                (map lower_char (strip is_space name)) in
  let slug := sub_runs is_hyphen false slug in
  strip is_hyphen slug.

(** What a slug looks like: lower-case letters, digits and single hyphens,
    with no hyphen at either end. *)
Definition slug_char (c : ascii) : bool := is_lower c || is_digit c || is_hyphen c.

Fixpoint no_double_hyphen (l : list ascii) : bool :=
  match l with
  | [] => true
  | c :: rest =>
      match rest with
      | [] => true
      | c' :: _ => negb (is_hyphen c && is_hyphen c') && no_double_hyphen rest
      end
  end.

Definition no_edge_hyphen (l : list ascii) : bool :=
  match l with
  | [] => true
  | c :: _ => negb (is_hyphen c) && negb (is_hyphen (last l c))
  end.

Definition head_not_hyphen (l : list ascii) : bool :=
  match l with
  | [] => true
  | c :: _ => negb (is_hyphen c)
  end.

Definition is_slug (l : list ascii) : bool :=
  forallb slug_char l && no_double_hyphen l && no_edge_hyphen l.

(** ** Further sample requests *)
Module Demo.

(** Rules and notifications: a rule of device D, a global rule, and one
    notification of each. *)
Definition rule_D : AlertRule :=
  {| rule_pk := 1%Z; rule_name := "ota failed on D"; rule_device := Some 1%N;
     rule_asset := None; rule_event_type := "ota_failed"; rule_is_active := true;
     cooldown_minutes := 60 |}.

Definition rule_any : AlertRule :=
  {| rule_pk := 2%Z; rule_name := "ota failed anywhere"; rule_device := None;
     rule_asset := None; rule_event_type := "ota_failed"; rule_is_active := true;
     cooldown_minutes := 60 |}.

Definition note_D : Dispatcher.NotificationQueue :=
  Dispatcher.fresh 1%Z 9%N (JArr [JStr "ops@example.org"]) "email" 3.

Definition note_any : Dispatcher.NotificationQueue :=
  Dispatcher.fresh 2%Z 9%N (JArr [JStr "ops@example.org"]) "email" 3.

(** A request that carries its key in the Authorization header. *)
Definition request_authorization : Request :=
  {| META := [("HTTP_AUTHORIZATION", "Api-Key abc.def")];
     data := Ok JNull; body := Ok ""; user := Sample.anonymous |}.


(** A resolve request of the operator whose resolved_at is a number. *)
Definition resolve_with_number : Request :=
  {| META := []; data := Ok (JObj [("resolved_at", JNum (1704067200 # 1))]);
     body := Ok ""; user := Sample.operator |}.

(** The request of the scenario without its idempotency key. *)
Definition request_no_key : Request :=
  {| META := [("HTTP_X_DEVICE_ID", "1"); ("HTTP_X_AUTH_KEY", "key-D")];
     data := Ok Sample.batch_abc; body := Ok "[..]"; user := Sample.anonymous |}.

(** A viewer of site 7 and a viewer of site 8. *)
Definition viewer_7 : Request :=
  {| META := []; data := Ok (JObj []); body := Ok ""; user := Sample.operator |}.

Definition viewer_8 : Request :=
  {| META := []; data := Ok (JObj []); body := Ok "";
     user := {| user_id := 6%Z; is_authenticated := true; sites := [8%Z] |} |}.

(** A request whose device identifier is no UUID. *)
Definition request_bad_id : Request :=
  Sample.device_request "not-a-uuid" "key-D" "77" None (Ok Sample.batch_abc)
    (Ok "[..]").

(** Requests of device D whose body could not be parsed, and whose body is
    an object instead of a list. *)
Definition request_unparsable : Request :=
  Sample.device_request "1" "key-D" "81" None (Raise ParseError) (Ok "[{").

Definition request_object_body : Request :=
  Sample.device_request "1" "key-D" "81" None
    (Ok (JObj [("metric", JStr "temp")])) (Ok "{..}").

(** An OTA report of device D that completed the update to 1.2.0, sent with
    D's headers, and the same for a failed update. *)
Definition request_ota_failed : Request :=
  Sample.device_request "1" "key-D" "" None
    (Ok (JObj [("status", JStr "failed"); ("version", JStr "1.2.0");
               ("error", JStr "checksum")])) (Ok "{}").

(** A store in which device D has a configuration and device E has none. *)
Definition config_D : DeviceConfiguration :=
  {| cfg_device := 1%N; sampling_rates := JObj [("temp", JNum (10 # 1))];
     thresholds := JObj []; ntp_servers := JArr [JStr "pool.ntp.org"];
     endpoints := JObj [] |}.

Definition db_config : DB :=
  {| devices := [Sample.device_D; Sample.device_E]; configurations := [config_D];
     firmware := [Sample.bundle_100; Sample.bundle_120];
     packets := []; points := []; events := [] |}.

End Demo.

(** * Properties *)

(** The end-to-end scenario of the specification: device D submits two
    readings, the second without a value, under key 77, then submits them
    again. *)
Example scenario_first_submission :
  fst (telemetry_batch Sample.env Sample.request_abc Sample.empty_db)
  = respond (BCounts 1 0 1) HTTP_200_OK.
Proof. reflexivity. Qed.

Example scenario_resubmission :
  let db1 := snd (telemetry_batch Sample.env Sample.request_abc Sample.empty_db) in
  telemetry_batch Sample.env Sample.request_abc db1
  = (respond (BCounts 0 1 0) HTTP_409_CONFLICT, db1).
Proof. reflexivity. Qed.

(** ** Batch ingestion *)

Section BatchFacts.

Variable env : Env.

Lemma truthy_some (v : option string) :
  truthy v = true -> exists s, v = Some s /\ s <> "".
Proof.
  destruct v as [s|]; simpl; [|discriminate].
  intros H. exists s. split; [reflexivity|].
  intros ->. discriminate.
Qed.

Lemma truthy_intro (s : string) : s <> "" -> truthy (Some s) = true.
Proof.
  intros H. simpl. destruct (String.eqb_spec s ""); [contradiction|reflexivity].
Qed.

(** A ledger row for the pair makes the existence query answer yes. *)
Lemma ledger_row_exists (db : DB) (device : Device) (key : string) (u : UUID) :
  parse_uuid env key = Some u ->
  (exists p, In p (packets db) /\ pkt_device p = dev_id device /\ upload_id p = u) ->
  TelemetryPacket_exists env db device key = Ok true.
Proof.
  intros Hu (p & Hin & Hd & Hup).
  unfold TelemetryPacket_exists. rewrite Hu. f_equal.
  apply existsb_exists. exists p. split; [exact Hin|].
  rewrite Hd, Hup, !N.eqb_refl. reflexivity.
Qed.

(** The duplicate answer, whatever the rest of the request holds. *)
Lemma duplicate_answer (request : Request) (db : DB) (device : Device) :
  truthy (META_get request "HTTP_X_DEVICE_ID") = true ->
  truthy (META_get request "HTTP_IDEMPOTENCY_KEY") = true ->
  request_device env request db = Ok device ->
  TelemetryPacket_exists env db device
    (or_empty (META_get request "HTTP_IDEMPOTENCY_KEY")) = Ok true ->
  telemetry_batch env request db = (respond (BCounts 0 1 0) HTTP_409_CONFLICT, db).
Proof.
  intros Hd Hi Hdev Hex.
  unfold telemetry_batch, telemetry_batch_try.
  rewrite Hd, Hi. cbn [andb negb].
  unfold request_device in Hdev. rewrite Hdev.
  rewrite Hex. reflexivity.
Qed.

End BatchFacts.

(** C1: when a ledger row already exists for the device and the upload id
    of a batch request, [telemetry_batch] answers accepted 0, duplicates 1,
    rejected 0 with the conflict status and leaves the store as it was: no
    new packet row, no new point row, the point count unchanged. *)
Theorem telemetry_batch_duplicate_writes_nothing
  (env : Env) (request : Request) (db : DB) (device : Device)
  (key : string) (u : UUID) :
  truthy (META_get request "HTTP_X_DEVICE_ID") = true ->
  META_get request "HTTP_IDEMPOTENCY_KEY" = Some key ->
  key <> "" ->
  request_device env request db = Ok device ->
  parse_uuid env key = Some u ->
  (exists p, In p (packets db) /\ pkt_device p = dev_id device /\ upload_id p = u) ->
  fst (telemetry_batch env request db) = respond (BCounts 0 1 0) HTTP_409_CONFLICT
  /\ snd (telemetry_batch env request db) = db
  /\ packets (snd (telemetry_batch env request db)) = packets db
  /\ List.length (points (snd (telemetry_batch env request db)))
     = List.length (points db).
Proof.
  intros Hd Hk Hne Hdev Hu Hrow.
  assert (E : telemetry_batch env request db
              = (respond (BCounts 0 1 0) HTTP_409_CONFLICT, db)).
  { apply duplicate_answer with (device := device); try assumption.
    - rewrite Hk. apply truthy_intro, Hne.
    - rewrite Hk. simpl. apply ledger_row_exists with (u := u); assumption. }
  rewrite E. simpl. repeat split; reflexivity.
Qed.

Lemma telemetry_batch_duplicate_writes_nothing_witness :
  fst (telemetry_batch Sample.env Sample.request_abc Sample.db_abc)
  = respond (BCounts 0 1 0) HTTP_409_CONFLICT
  /\ snd (telemetry_batch Sample.env Sample.request_abc Sample.db_abc) = Sample.db_abc
  /\ packets (snd (telemetry_batch Sample.env Sample.request_abc Sample.db_abc))
     = packets Sample.db_abc
  /\ List.length (points (snd (telemetry_batch Sample.env Sample.request_abc Sample.db_abc)))
     = List.length (points Sample.db_abc).
Proof.
  apply (@telemetry_batch_duplicate_writes_nothing Sample.env Sample.request_abc
           Sample.db_abc
           {| dev_id := 1%N; serial_number := "SN-0001"; model := "X1";
              firmware_version := "1.0.0"; api_key := "key-D"; site := 7%Z;
              last_seen := Some 1735689600%Z |} "77" 77%N).
  - reflexivity.
  - reflexivity.
  - discriminate.
  - reflexivity.
  - reflexivity.
  - eexists. split; [left; reflexivity|]. split; reflexivity.
Defined.

(** C10: the duplicate check comes before any validation of the payload: a
    request whose device and upload id match a ledger row gets the
    duplicate answer with the conflict status also when its body is not a
    list or its declared hash does not match the raw payload. *)
Theorem duplicate_check_precedes_validation
  (env : Env) (request : Request) (db : DB) (device : Device)
  (key : string) (u : UUID) :
  truthy (META_get request "HTTP_X_DEVICE_ID") = true ->
  META_get request "HTTP_IDEMPOTENCY_KEY" = Some key ->
  key <> "" ->
  request_device env request db = Ok device ->
  parse_uuid env key = Some u ->
  (exists p, In p (packets db) /\ pkt_device p = dev_id device /\ upload_id p = u) ->
  (forall items, data request <> Ok (JArr items))
  \/ content_hash_mismatch env request (META_get request "HTTP_CONTENT_SHA256") = true ->
  telemetry_batch env request db = (respond (BCounts 0 1 0) HTTP_409_CONFLICT, db).
Proof.
  intros Hd Hk Hne Hdev Hu Hrow _.
  apply duplicate_answer with (device := device); try assumption.
  - rewrite Hk. apply truthy_intro, Hne.
  - rewrite Hk. simpl. apply ledger_row_exists with (u := u); assumption.
Qed.

Lemma duplicate_check_precedes_validation_witness :
  ((forall items, data Sample.request_abc_broken <> Ok (JArr items))
   /\ content_hash_mismatch Sample.env Sample.request_abc_broken
        (META_get Sample.request_abc_broken "HTTP_CONTENT_SHA256") = true)
  /\ telemetry_batch Sample.env Sample.request_abc_broken Sample.db_abc
     = (respond (BCounts 0 1 0) HTTP_409_CONFLICT, Sample.db_abc).
Proof.
  split.
  - split; [intros items; discriminate | reflexivity].
  - apply (@duplicate_check_precedes_validation Sample.env Sample.request_abc_broken
             Sample.db_abc
             {| dev_id := 1%N; serial_number := "SN-0001"; model := "X1";
                firmware_version := "1.0.0"; api_key := "key-D"; site := 7%Z;
                last_seen := Some 1735689600%Z |} "77" 77%N).
    + reflexivity.
    + reflexivity.
    + discriminate.
    + reflexivity.
    + reflexivity.
    + eexists. split; [left; reflexivity|]. split; reflexivity.
    + left. intros items. discriminate.
Defined.



Section LoopFacts.

Variable env : Env.
Variable device : Device.

Lemma count_le {A} (f : A -> bool) (l : list A) : count f l <= List.length l.
Proof. unfold count. apply filter_length_le. Qed.

(** The loop stores exactly the items whose creation succeeds, in order,
    and counts the others. *)
Lemma process_batch_spec (items : list json) :
  forall (db : DB) (a r : nat),
    process_batch env device items db a r
    = ({| devices := devices db; configurations := configurations db;
          firmware := firmware db; packets := packets db;
          points := points db ++ stored_points env device items;
          events := events db |},
       a + count (stored env device) items,
       r + (List.length items - count (stored env device) items)).
Proof.
  induction items as [|item rest IH]; intros db a r.
  - cbn. rewrite app_nil_r, !Nat.add_0_r. destruct db; reflexivity.
  - cbn [process_batch stored_points flat_map].
    pose proof (count_le (stored env device) rest) as Hle.
    destruct (process_item env device item) as [p|e] eqn:E.
    + assert (Hs : count (stored env device) (item :: rest)
                   = S (count (stored env device) rest)).
      { unfold count, stored. cbn [filter]. rewrite E. reflexivity. }
      rewrite IH, Hs.
      cbn [add_point devices configurations firmware packets points events].
      rewrite <- app_assoc. cbn [List.length app].
      apply f_equal2; [apply f_equal2; [reflexivity | lia] | lia].
    + assert (Hs : count (stored env device) (item :: rest)
                   = count (stored env device) rest).
      { unfold count, stored. cbn [filter]. rewrite E. reflexivity. }
      rewrite IH, Hs. cbn [app List.length].
      apply f_equal2; [apply f_equal2; [reflexivity | lia] | lia].
Qed.








End LoopFacts.




(** ** Device identity *)

Section IdentityFacts.

Variable env : Env.

Lemma lookup_fails (request : Request) (db : DB) (s : string) (u : UUID) :
  META_get request "HTTP_X_DEVICE_ID" = Some s ->
  parse_uuid env s = Some u ->
  no_matching_device db u (presented_key request) ->
  request_device env request db = Raise DoesNotExist.
Proof.
  intros Hs Hu Hno. unfold request_device, Device_objects_get.
  rewrite Hs, Hu. fold (presented_key request).
  destruct (presented_key request) as [k|]; [|reflexivity].
  assert (E : filter (fun d => (dev_id d =? u)%N && (api_key d =? k)%string)
                     (devices db) = []).
  { unfold no_matching_device in Hno.
    induction (devices db) as [|d rest IH]; [reflexivity|].
    cbn [filter].
    destruct (N.eqb_spec (dev_id d) u) as [Eu|]; cbn [andb].
    - destruct (String.eqb_spec (api_key d) k) as [Ek|].
      + exfalso. apply (Hno d (or_introl eq_refl) Eu). congruence.
      + apply IH. intros d' Hin. apply Hno. right. exact Hin.
    - apply IH. intros d' Hin. apply Hno. right. exact Hin. }
  rewrite E. reflexivity.
Qed.

End IdentityFacts.

(** C8 (as amended): no device-facing view tells an unknown device
    identifier from a known one with a mismatched credential.  Whenever no
    device row has both the identifier and the presented credential, batch
    ingest answers 401 ("Device not found or invalid API key"), and config
    fetch, OTA check and OTA report all answer 404 ("Device not found");
    the store is unchanged. *)
Theorem identity_failures_not_distinguished
  (env : Env) (request : Request) (db : DB) (s : string) (u : UUID) :
  META_get request "HTTP_X_DEVICE_ID" = Some s ->
  s <> "" ->
  parse_uuid env s = Some u ->
  no_matching_device db u (presented_key request) ->
  get_config env request db = (respond (BError "Device not found") HTTP_404_NOT_FOUND, db)
  /\ ota_check env request db
     = (respond (BError "Device not found") HTTP_404_NOT_FOUND, db)
  /\ ota_report env request db
     = (respond (BError "Device not found") HTTP_404_NOT_FOUND, db)
  /\ (truthy (META_get request "HTTP_IDEMPOTENCY_KEY") = true ->
      telemetry_batch env request db
      = (respond (BError "Device not found or invalid API key")
                 HTTP_401_UNAUTHORIZED, db)).
Proof.
  intros Hs Hne Hu Hno.
  pose proof (@lookup_fails env request db s u Hs Hu Hno) as E.
  unfold get_config, ota_check, ota_report. rewrite E.
  repeat split.
  intros Hi. unfold telemetry_batch, telemetry_batch_try.
  rewrite Hs, (truthy_intro Hne), Hi. cbn [andb negb].
  rewrite <- Hs. unfold request_device in E. rewrite E. reflexivity.
Qed.

Lemma identity_failures_not_distinguished_witness :
  get_config Sample.env Sample.request_wrong_key Sample.empty_db
  = (respond (BError "Device not found") HTTP_404_NOT_FOUND, Sample.empty_db)
  /\ ota_check Sample.env Sample.request_wrong_key Sample.empty_db
     = (respond (BError "Device not found") HTTP_404_NOT_FOUND, Sample.empty_db)
  /\ ota_report Sample.env Sample.request_wrong_key Sample.empty_db
     = (respond (BError "Device not found") HTTP_404_NOT_FOUND, Sample.empty_db)
  /\ (truthy (META_get Sample.request_wrong_key "HTTP_IDEMPOTENCY_KEY") = true ->
      telemetry_batch Sample.env Sample.request_wrong_key Sample.empty_db
      = (respond (BError "Device not found or invalid API key")
                 HTTP_401_UNAUTHORIZED, Sample.empty_db)).
Proof.
  apply (@identity_failures_not_distinguished Sample.env Sample.request_wrong_key
           Sample.empty_db "1" 1%N).
  - reflexivity.
  - discriminate.
  - reflexivity.
  - intros d [<-|[]] _. discriminate.
Defined.

(** C8 fails as stated: config fetch answers a known device with a wrong
    credential with 404, not 401, and batch ingest answers an unknown device
    with 401, not 404. *)
Lemma identity_failures_conflated :
  (exists d, In d (devices Sample.empty_db) /\ Some (dev_id d) = parse_uuid Sample.env "1"
             /\ presented_key Sample.request_wrong_key <> Some (api_key d))
  /\ status_code (fst (get_config Sample.env Sample.request_wrong_key Sample.empty_db))
     = HTTP_404_NOT_FOUND
  /\ status_code (fst (get_config Sample.env Sample.request_wrong_key Sample.empty_db))
     <> HTTP_401_UNAUTHORIZED
  /\ (forall d, In d (devices Sample.empty_db) ->
                Some (dev_id d) <> parse_uuid Sample.env "2")
  /\ status_code (fst (telemetry_batch Sample.env Sample.request_unknown_device
                         Sample.empty_db)) = HTTP_401_UNAUTHORIZED
  /\ status_code (fst (telemetry_batch Sample.env Sample.request_unknown_device
                         Sample.empty_db)) <> HTTP_404_NOT_FOUND.
Proof.
  split.
  { exists Sample.device_D. split; [left; reflexivity|].
    split; [reflexivity|discriminate]. }
  split; [reflexivity|]. split; [discriminate|].
  split. { intros d [<-|[]]. discriminate. }
  split; [reflexivity|discriminate].
Qed.

(** ** OTA reports *)

Lemma ota_severity_high (v : json) :
  ota_severity v = high <-> v = JStr "failed" \/ v = JStr "rollback".
Proof.
  unfold ota_severity, json_eq_str.
  destruct v as [| | |s| |]; cbn [orb];
    try (split; [discriminate | intros [H|H]; discriminate]).
  destruct (String.eqb_spec s "failed") as [->|Hf]; cbn [orb].
  - split; auto.
  - destruct (String.eqb_spec s "rollback") as [->|Hr].
    + split; auto.
    + split; [discriminate|]. intros [H|H]; congruence.
Qed.

Lemma ota_severity_low (v : json) :
  ota_severity v = low <-> ~ (v = JStr "failed" \/ v = JStr "rollback").
Proof.
  rewrite <- ota_severity_high. unfold ota_severity.
  destruct (_ || _); split; congruence.
Qed.

(** C9: on an OTA report the firmware_version of the device row becomes the
    reported version exactly when the reported status is "completed" and a
    version is supplied, and the device table is unchanged otherwise; the
    event that is emitted has severity high exactly when the status is
    "failed" or "rollback", and low otherwise. *)
Theorem ota_report_effects
  (env : Env) (request : Request) (db : DB) (device : Device)
  (kv : list (string * json)) :
  request_device env request db = Ok device ->
  data request = Ok (JObj kv) ->
  column_fits env 255 ("ota_" ++ py_str env (field (JObj kv) "status")) = true ->
  (json_eq_str (field (JObj kv) "status") "completed"
   && json_truthy (field (JObj kv) "version") = true ->
   column_fits env 100 (py_str env (field (JObj kv) "version")) = true) ->
  let status_update := field (JObj kv) "status" in
  let ver := field (JObj kv) "version" in
  let db' := snd (ota_report env request db) in
  fst (ota_report env request db) = respond BReported HTTP_200_OK
  /\ (exists ev, events db' = (events db ++ [ev])%list
                /\ ev_device ev = dev_id device
                /\ event_type ev = "ota_" ++ py_str env status_update
                /\ (severity ev = high
                    <-> status_update = JStr "failed" \/ status_update = JStr "rollback")
                /\ (severity ev = low
                    <-> ~ (status_update = JStr "failed" \/ status_update = JStr "rollback")))
  /\ (json_eq_str status_update "completed" && json_truthy ver = true ->
      devices db'
      = map (fun q => if (dev_id q =? dev_id device)%N
                      then {| dev_id := dev_id device;
                              serial_number := serial_number device;
                              model := model device;
                              firmware_version := py_str env ver;
                              api_key := api_key device; site := site device;
                              last_seen := last_seen device |}
                      else q) (devices db))
  /\ (json_eq_str status_update "completed" && json_truthy ver = false ->
      devices db' = devices db).
Proof.
  intros Hdev Hdata Hfit Hfit' status_update ver db'.
  subst db'. unfold ota_report. rewrite Hdev, Hdata. cbn [bind].
  unfold ota_event. cbn [py_get py_get_default bind].
  fold (field (JObj kv) "status"). fold (field (JObj kv) "version").
  fold status_update. fold ver.
  unfold SystemEvent_objects_create. fold status_update in Hfit. rewrite Hfit.
  cbn [bind].
  destruct (json_eq_str status_update "completed" && json_truthy ver) eqn:Ec.
  - specialize (Hfit' Ec). fold ver in Hfit'.
    assert (Es : CharField_save env 100 ver = Ok (py_str env ver)).
    { unfold CharField_save. rewrite Hfit'.
      apply andb_prop in Ec. destruct Ec as [_ Et].
      destruct ver; try reflexivity. discriminate. }
    rewrite Es. cbn [fst snd].
    split; [reflexivity|]. split.
    + eexists. split; [reflexivity|]. cbn [ev_device event_type severity].
      split; [reflexivity|]. split; [reflexivity|].
      split; [apply ota_severity_high | apply ota_severity_low].
    + split; [intros _; reflexivity | discriminate].
  - cbn [fst snd].
    split; [reflexivity|]. split.
    + eexists. split; [reflexivity|]. cbn [ev_device event_type severity].
      split; [reflexivity|]. split; [reflexivity|].
      split; [apply ota_severity_high | apply ota_severity_low].
    + split; [discriminate | intros _; reflexivity].
Qed.

Lemma ota_report_effects_witness :
  fst (ota_report Sample.env Sample.request_ota_completed Sample.empty_db)
  = respond BReported HTTP_200_OK
  /\ map firmware_version
       (devices (snd (ota_report Sample.env Sample.request_ota_completed
                        Sample.empty_db))) = ["1.2.0"].
Proof.
  pose proof (@ota_report_effects Sample.env Sample.request_ota_completed
                Sample.empty_db Sample.device_D
                [("status", JStr "completed"); ("version", JStr "1.2.0")]
                eq_refl eq_refl eq_refl (fun _ => eq_refl)) as H.
  cbv zeta in H. destruct H as (H1 & _ & H3 & _).
  split; [exact H1|].
  rewrite (H3 eq_refl). reflexivity.
Defined.

(** ** Firmware rollout *)

Section RolloutFacts.

Lemma insert_by_created_at_in (b x : FirmwareBundle) (l : list FirmwareBundle) :
  In x (insert_by_created_at b l) <-> x = b \/ In x l.
Proof.
  induction l as [|y rest IH]; cbn [insert_by_created_at].
  - cbn. intuition.
  - destruct (created_at y <=? created_at b)%Z; cbn [In].
    + intuition.
    + rewrite IH. intuition.
Qed.

Lemma order_by_created_at_desc_in (x : FirmwareBundle) (l : list FirmwareBundle) :
  In x (order_by_created_at_desc l) <-> In x l.
Proof.
  induction l as [|y rest IH]; cbn [order_by_created_at_desc]; [reflexivity|].
  rewrite insert_by_created_at_in, IH. cbn. intuition.
Qed.

Lemma insert_keeps_head_latest (b : FirmwareBundle) (l : list FirmwareBundle) :
  head_is_latest l -> head_is_latest (insert_by_created_at b l).
Proof.
  unfold head_is_latest. intros Hl h Hh x Hx.
  destruct l as [|y rest]; cbn [insert_by_created_at] in *.
  - injection Hh as <-. destruct Hx as [<-|[]]. lia.
  - specialize (Hl y eq_refl).
    destruct (Z.leb_spec (created_at y) (created_at b)).
    + injection Hh as <-. destruct Hx as [<-|Hx]; [lia|].
      specialize (Hl x Hx). lia.
    + injection Hh as <-. destruct Hx as [<-|Hx]; [lia|].
      apply insert_by_created_at_in in Hx. destruct Hx as [->|Hx]; [lia|].
      apply Hl. right. exact Hx.
Qed.

Lemma order_by_head_latest (l : list FirmwareBundle) :
  head_is_latest (order_by_created_at_desc l).
Proof.
  induction l as [|y rest IH]; cbn [order_by_created_at_desc].
  - intros h Hh. discriminate.
  - apply insert_keeps_head_latest, IH.
Qed.

Lemma firmware_matches_spec (device : Device) (b : FirmwareBundle) :
  firmware_matches device b = true <->
  In (model device) (supported_models b)
  /\ (channel b = "stable" \/ channel b = split_dot_head (firmware_version device)).
Proof.
  unfold firmware_matches. rewrite andb_true_iff, !existsb_exists. split.
  - intros [(m & Hm & Em) (c & Hc & Ec)].
    apply String.eqb_eq in Em, Ec. subst m c. split; [exact Hm|].
    destruct Hc as [<-|[<-|[]]]; auto.
  - intros [Hm Hc]. split.
    + exists (model device). split; [exact Hm|apply String.eqb_refl].
    + exists (channel b). split; [|apply String.eqb_refl].
      destruct Hc as [->| ->]; cbn; auto.
Qed.

(** What [latest_firmware] picks: a matching bundle of the table than which
    no matching bundle is more recent; nothing only when none matches. *)
Lemma latest_firmware_some (db : DB) (device : Device) (fw : FirmwareBundle) :
  latest_firmware db device = Some fw ->
  In fw (firmware db) /\ firmware_matches device fw = true
  /\ forall b, In b (firmware db) -> firmware_matches device b = true ->
               (created_at b <= created_at fw)%Z.
Proof.
  unfold latest_firmware. intros H.
  assert (Hin : In fw (order_by_created_at_desc
                        (filter (firmware_matches device) (firmware db)))).
  { destruct (order_by_created_at_desc _) as [|h t]; [discriminate|].
    injection H as ->. left. reflexivity. }
  apply order_by_created_at_desc_in, filter_In in Hin. destruct Hin as [Hin Hm].
  split; [exact Hin|]. split; [exact Hm|].
  intros b Hb Hbm. apply (order_by_head_latest _ H).
  apply order_by_created_at_desc_in, filter_In. split; assumption.
Qed.

Lemma latest_firmware_none (db : DB) (device : Device) :
  latest_firmware db device = None <->
  forall b, In b (firmware db) -> firmware_matches device b = false.
Proof.
  unfold latest_firmware. split.
  - intros H b Hb. destruct (firmware_matches device b) eqn:E; [|reflexivity].
    assert (Hin : In b (order_by_created_at_desc
                          (filter (firmware_matches device) (firmware db)))).
    { apply order_by_created_at_desc_in, filter_In. split; assumption. }
    destruct (order_by_created_at_desc _); [destruct Hin|discriminate].
  - intros H.
    destruct (order_by_created_at_desc _) as [|h t] eqn:E; [reflexivity|].
    assert (Hin : In h (order_by_created_at_desc
                          (filter (firmware_matches device) (firmware db)))).
    { rewrite E. left. reflexivity. }
    apply order_by_created_at_desc_in, filter_In in Hin. destruct Hin as [Hin Hm].
    rewrite (H h Hin) in Hm. discriminate.
Qed.

(** The answer of [ota_check] once the device is resolved. *)
Lemma ota_check_answer (env : Env) (request : Request) (db : DB) (device : Device) :
  request_device env request db = Ok device ->
  ota_check env request db
  = (match latest_firmware db device with
     | Some fw =>
         if (version fw =? firmware_version device)%string
         then respond (BUnavailable (firmware_version device)) HTTP_200_OK
         else respond (BAvailable (version fw) (hash fw)
                         ("/api/firmware/" ++ version fw ++ "/download/")
                         (release_notes fw)) HTTP_200_OK
     | None => respond (BUnavailable (firmware_version device)) HTTP_200_OK
     end, db).
Proof.
  intros H. unfold ota_check. rewrite H.
  destruct (latest_firmware db device) as [fw|]; [|reflexivity].
  destruct (version fw =? firmware_version device)%string; reflexivity.
Qed.

End RolloutFacts.

(** C4 (as amended): [ota_check] reports a bundle as available only if the
    bundle's supported models contain the device's model, its channel is
    "stable" or the first dot-separated part of the device's firmware
    version, and its version differs from the device's current firmware
    version; no order on versions is consulted. *)
Theorem ota_check_available_only_if
  (env : Env) (request : Request) (db : DB) (ver h url notes : string) :
  resp_body (fst (ota_check env request db)) = BAvailable ver h url notes ->
  exists device fw,
    request_device env request db = Ok device
    /\ In fw (firmware db)
    /\ version fw = ver /\ hash fw = h /\ release_notes fw = notes
    /\ In (model device) (supported_models fw)
    /\ (channel fw = "stable"
        \/ channel fw = split_dot_head (firmware_version device))
    /\ version fw <> firmware_version device.
Proof.
  intros H. unfold ota_check in H.
  destruct (request_device env request db) as [device|e] eqn:Edev.
  - destruct (latest_firmware db device) as [fw|] eqn:Efw; [|discriminate].
    destruct (String.eqb_spec (version fw) (firmware_version device)) as [|Hne];
      [discriminate|].
    cbn in H. injection H as <- <- _ <-.
    apply latest_firmware_some in Efw. destruct Efw as (Hin & Hm & _).
    apply firmware_matches_spec in Hm. destruct Hm as [Hmodel Hch].
    exists device, fw. repeat split; assumption.
  - destruct e; discriminate.
Qed.

Lemma ota_check_available_only_if_witness :
  exists device fw,
    request_device Sample.env Sample.request_ota_D Sample.db_ota = Ok device
    /\ In fw (firmware Sample.db_ota)
    /\ version fw = "1.2.0" /\ hash fw = "h120" /\ release_notes fw = "fixes"
    /\ In (model device) (supported_models fw)
    /\ (channel fw = "stable"
        \/ channel fw = split_dot_head (firmware_version device))
    /\ version fw <> firmware_version device.
Proof.
  apply (@ota_check_available_only_if Sample.env Sample.request_ota_D Sample.db_ota
           "1.2.0" "h120" "/api/firmware/1.2.0/download/" "fixes").
  reflexivity.
Defined.

(** C4 fails as stated: a device at 1.2.0 is offered the bundle 1.0.0, whose
    version does not exceed the device's. *)
Lemma older_bundle_reported_available :
  request_device Sample.env Sample.request_ota_E Sample.db_old_bundle
  = Ok Sample.device_E
  /\ firmware_version Sample.device_E = "1.2.0"
  /\ fst (ota_check Sample.env Sample.request_ota_E Sample.db_old_bundle)
     = respond (BAvailable "1.0.0" "h100" "/api/firmware/1.0.0/download/"
                           "first release") HTTP_200_OK
  /\ version_exceeds_spec "1.0.0" "1.2.0" = false.
Proof.
  repeat split; reflexivity.
Qed.

(** C5: among the bundles whose supported models contain the device's model
    and whose channel matches, [ota_check] takes the most recently created
    one, and answers from that one alone.  A device at 1.0.0 whose newest
    matching bundle is 1.2.0 is told available with that bundle's version,
    hash, download reference and release notes; a device already at 1.2.0 is
    told not available with its current version. *)
Theorem ota_check_selects_latest
  (env : Env) (request : Request) (db : DB) (device : Device) :
  request_device env request db = Ok device ->
  (forall fw, latest_firmware db device = Some fw ->
     In fw (firmware db)
     /\ In (model device) (supported_models fw)
     /\ (channel fw = "stable"
         \/ channel fw = split_dot_head (firmware_version device))
     /\ (forall b, In b (firmware db) -> firmware_matches device b = true ->
                   (created_at b <= created_at fw)%Z)
     /\ ota_check env request db
        = (if (version fw =? firmware_version device)%string
           then respond (BUnavailable (firmware_version device)) HTTP_200_OK
           else respond (BAvailable (version fw) (hash fw)
                           ("/api/firmware/" ++ version fw ++ "/download/")
                           (release_notes fw)) HTTP_200_OK, db))
  /\ ((exists b, In b (firmware db) /\ firmware_matches device b = true) ->
      exists fw, latest_firmware db device = Some fw)
  /\ (forall fw, latest_firmware db device = Some fw ->
        firmware_version device = "1.0.0" -> version fw = "1.2.0" ->
        ota_check env request db
        = (respond (BAvailable "1.2.0" (hash fw) "/api/firmware/1.2.0/download/"
                      (release_notes fw)) HTTP_200_OK, db))
  /\ (forall fw, latest_firmware db device = Some fw ->
        firmware_version device = "1.2.0" -> version fw = "1.2.0" ->
        ota_check env request db
        = (respond (BUnavailable "1.2.0") HTTP_200_OK, db)).
Proof.
  intros Hdev.
  pose proof (ota_check_answer env request db Hdev) as Ha.
  split.
  { intros fw Hfw. rewrite Hfw in Ha.
    destruct (latest_firmware_some _ _ Hfw) as (Hin & Hm & Hmax).
    apply firmware_matches_spec in Hm. destruct Hm as [Hmodel Hch].
    repeat split; assumption. }
  split.
  { intros (b & Hb & Hm).
    destruct (latest_firmware db device) as [fw|] eqn:E; [eauto|].
    rewrite latest_firmware_none in E. rewrite (E b Hb) in Hm. discriminate. }
  split.
  - intros fw Hfw Hv Hw. rewrite Hfw, Hv, Hw in Ha. exact Ha.
  - intros fw Hfw Hv Hw. rewrite Hfw, Hv, Hw in Ha. exact Ha.
Qed.

Lemma ota_check_selects_latest_witness :
  ota_check Sample.env Sample.request_ota_D Sample.db_ota
  = (respond (BAvailable "1.2.0" "h120" "/api/firmware/1.2.0/download/" "fixes")
             HTTP_200_OK, Sample.db_ota)
  /\ ota_check Sample.env Sample.request_ota_E Sample.db_ota
     = (respond (BUnavailable "1.2.0") HTTP_200_OK, Sample.db_ota).
Proof.
  split.
  - destruct (@ota_check_selects_latest Sample.env Sample.request_ota_D
                Sample.db_ota Sample.device_D eq_refl) as (_ & _ & H & _).
    exact (H Sample.bundle_120 eq_refl eq_refl eq_refl).
  - destruct (@ota_check_selects_latest Sample.env Sample.request_ota_E
                Sample.db_ota Sample.device_E eq_refl) as (_ & _ & _ & H).
    exact (H Sample.bundle_120 eq_refl eq_refl eq_refl).
Defined.

(** ** Event actions *)

Section EventFacts.

Variable env : Env.




End EventFacts.




(** ** Notification retries *)

Section DispatcherFacts.

Import Dispatcher.

Variable p : BackoffPolicy.
Hypothesis p_ok : policy_ok p.

Lemma backoff_positive (k : nat) : (0 < backoff p k)%Z.
Proof.
  destruct p_ok as (Hb & Hm & Hj). unfold backoff.
  specialize (Hj k).
  assert (0 < 2 ^ Z.of_nat (k - 1))%Z by (apply Z.pow_pos_nonneg; lia).
  assert (0 < base_interval p * 2 ^ Z.of_nat (k - 1))%Z by nia.
  lia.
Qed.

Lemma attempt_max_retries (t : datetime) (o : Outcome) (n : NotificationQueue) :
  max_retries (attempt p t o n) = max_retries n.
Proof.
  unfold attempt. destruct (due t n); [|reflexivity].
  destruct o; try reflexivity.
  destruct (_ <? _)%nat; [reflexivity|]. destruct (_ =? _)%nat; reflexivity.
Qed.

Lemma due_status (t : datetime) (n : NotificationQueue) :
  due t n = true -> status n = pending \/ status n = retry.
Proof.
  unfold due. destruct (status n); auto; discriminate.
Qed.

(** One attempt keeps a row in bounds. *)
Lemma attempt_in_bounds (t : datetime) (o : Outcome) (n : NotificationQueue) :
  in_bounds n -> in_bounds (attempt p t o n).
Proof.
  intros (Hle & Hlt & Hnext). unfold attempt.
  destruct (due t n) eqn:Ed; [|repeat split; assumption].
  specialize (Hlt (due_status _ _ Ed)).
  destruct o;
    [ | destruct (Nat.ltb_spec (S (retry_count n)) (max_retries n));
        [ | destruct (Nat.eqb_spec (S (retry_count n)) (max_retries n)); [|lia] ]
      | ];
    unfold in_bounds; cbn; repeat split;
    try lia; try discriminate; try (intros [H'|H']; discriminate).
Qed.

Lemma run_in_bounds (polls : list (datetime * Outcome)) :
  forall n, in_bounds n -> in_bounds (run p polls n).
Proof.
  induction polls as [|[t o] rest IH]; intros n H; cbn [run]; [exact H|].
  apply IH, attempt_in_bounds, H.
Qed.

Lemma run_max_retries (polls : list (datetime * Outcome)) :
  forall n, max_retries (run p polls n) = max_retries n.
Proof.
  induction polls as [|[t o] rest IH]; intros n; cbn [run]; [reflexivity|].
  rewrite IH. apply attempt_max_retries.
Qed.

Lemma run_app (polls more : list (datetime * Outcome)) :
  forall n, run p (polls ++ more) n = run p more (run p polls n).
Proof.
  induction polls as [|[t o] rest IH]; intros n; cbn [run app]; [reflexivity|].
  apply IH.
Qed.

(** A row in retry right after a poll at [t] has its next time after [t]. *)
Lemma attempt_retry_future (t : datetime) (o : Outcome) (n : NotificationQueue) :
  in_bounds n ->
  status (attempt p t o n) = retry ->
  exists t', next_retry_at (attempt p t o n) = Some t' /\ (t < t')%Z.
Proof.
  intros (Hle & Hlt & Hnext). unfold attempt.
  destruct (due t n) eqn:Ed.
  - specialize (Hlt (due_status _ _ Ed)).
    destruct o; [cbn; discriminate | | cbn; discriminate].
    destruct (Nat.ltb_spec (S (retry_count n)) (max_retries n)).
    + cbn. intros _. eexists. split; [reflexivity|].
      pose proof (backoff_positive (S (retry_count n))). lia.
    + destruct (Nat.eqb_spec (S (retry_count n)) (max_retries n)); [|lia].
      cbn. discriminate.
  - intros Hs. specialize (Hnext Hs). unfold due in Ed. rewrite Hs in Ed.
    destruct (next_retry_at n) as [t'|]; [|congruence].
    exists t'. split; [reflexivity|]. apply Z.leb_gt in Ed. exact Ed.
Qed.

(** A failed row is never polled again. *)
Lemma failed_terminal (polls : list (datetime * Outcome)) :
  forall n, status n = failed -> run p polls n = n.
Proof.
  induction polls as [|[t o] rest IH]; intros n H; cbn [run]; [reflexivity|].
  assert (E : attempt p t o n = n).
  { unfold attempt, due. rewrite H. reflexivity. }
  rewrite E. apply IH, H.
Qed.

(** Transient failures only, each at a poll that finds the row due: every
    one is counted, and the one that reaches the limit fails the row. *)
Lemma run_transient (polls : list (datetime * Outcome)) :
  forall n,
    transient_only polls = true ->
    all_due p polls n = true ->
    retry_count n + List.length polls <= max_retries n ->
    retry_count (run p polls n) = retry_count n + List.length polls
    /\ (0 < List.length polls ->
        status (run p polls n)
        = if (retry_count n + List.length polls =? max_retries n)%nat
          then failed else retry).
Proof.
  induction polls as [|[t o] rest IH]; intros n Ht Hd Hlen.
  - cbn. split; [lia|]. intros H. inversion H.
  - cbn [transient_only forallb snd] in Ht. apply andb_prop in Ht.
    destruct Ht as [Ho Ht]. destruct o; try discriminate.
    cbn [all_due] in Hd. apply andb_prop in Hd. destruct Hd as [Hdue Hd].
    cbn [List.length] in *. cbn [run].
    assert (Ea : attempt p t TransientFailure n
                 = if (S (retry_count n) <? max_retries n)%nat
                   then set_delivery n retry (S (retry_count n))
                          (Some (t + backoff p (S (retry_count n)))%Z)
                          (sent_at n) (error_message n)
                   else set_delivery n failed (S (retry_count n))
                          (next_retry_at n) (sent_at n) (error_message n)).
    { unfold attempt. rewrite Hdue.
      destruct (Nat.ltb_spec (S (retry_count n)) (max_retries n)); [reflexivity|].
      destruct (Nat.eqb_spec (S (retry_count n)) (max_retries n)); [reflexivity|lia]. }
    rewrite Ea in *.
    destruct (Nat.ltb_spec (S (retry_count n)) (max_retries n)) as [Hlt|Hge].
    + destruct (IH _ Ht Hd) as [Hc Hs]; [cbn; lia|].
      cbn [retry_count set_delivery max_retries] in Hc, Hs.
      split; [lia|]. intros _.
      destruct rest as [|x rest'].
      * cbn. destruct (Nat.eqb_spec (retry_count n + 1) (max_retries n)); [lia|].
        reflexivity.
      * rewrite Hs by (cbn; lia).
        replace (S (retry_count n) + List.length (x :: rest'))
          with (retry_count n + S (List.length (x :: rest'))) by lia.
        reflexivity.
    + assert (rest = []) by (destruct rest; [reflexivity|cbn in Hlen; lia]).
      subst rest. cbn. split; [lia|]. intros _.
      destruct (Nat.eqb_spec (retry_count n + 1) (max_retries n)); [reflexivity|lia].
Qed.

(** The schedule of [due_schedule] is such a list of polls. *)
Lemma due_schedule_ok (k : nat) :
  forall n,
    in_bounds n -> status n = pending \/ status n = retry ->
    retry_count n + k <= max_retries n ->
    transient_only (due_schedule p k n) = true
    /\ all_due p (due_schedule p k n) n = true
    /\ List.length (due_schedule p k n) = k.
Proof.
  induction k as [|k IH]; intros n Hb Hs Hlen; [repeat split|].
  cbn [due_schedule transient_only forallb snd all_due List.length].
  set (t := match next_retry_at n with Some t' => t' | None => 0%Z end).
  assert (Hdue : due t n = true).
  { unfold due, t. destruct Hb as (_ & _ & Hn).
    destruct Hs as [Hs|Hs]; rewrite Hs; [reflexivity|].
    specialize (Hn Hs).
    destruct (next_retry_at n) as [t'|]; [apply Z.leb_refl|congruence]. }
  rewrite Hdue. cbn [andb].
  destruct k as [|k'].
  - repeat split.
  - destruct (IH (attempt p t TransientFailure n)) as (H1 & H2 & H3).
    + apply attempt_in_bounds, Hb.
    + unfold attempt. rewrite Hdue.
      destruct (Nat.ltb_spec (S (retry_count n)) (max_retries n)); [|lia].
      right. reflexivity.
    + rewrite attempt_max_retries. unfold attempt. rewrite Hdue.
      destruct (Nat.ltb_spec (S (retry_count n)) (max_retries n)); [|lia].
      cbn. lia.
    + unfold transient_only in H1. rewrite H1, H2, H3. repeat split.
Qed.

End DispatcherFacts.

(** C7 (as amended): for every entry created with max_retries at least 1
    (pending, retry_count 0), retry_count never exceeds max_retries under
    any sequence of dispatch attempts; when every attempt finds the entry
    due and fails transiently, the attempt number max_retries leaves it in
    status failed with retry_count equal to max_retries (and such a
    sequence of attempts exists); an entry that is in status retry after an
    attempt at time t carries a next-retry-at later than t; and a failed
    entry is not changed by any later attempt. *)
Theorem dispatcher_retry_bound
  (p : Dispatcher.BackoffPolicy) (rule : Z) (ev : UUID) (rcpt : json)
  (ch : string) (limit : nat) :
  Dispatcher.policy_ok p ->
  1 <= limit ->
  let n0 := Dispatcher.fresh rule ev rcpt ch limit in
  (forall polls,
     Dispatcher.retry_count (Dispatcher.run p polls n0)
     <= Dispatcher.max_retries (Dispatcher.run p polls n0)
     /\ Dispatcher.max_retries (Dispatcher.run p polls n0) = limit)
  /\ (forall polls,
        Dispatcher.transient_only polls = true ->
        Dispatcher.all_due p polls n0 = true ->
        List.length polls = limit ->
        Dispatcher.status (Dispatcher.run p polls n0) = Dispatcher.failed
        /\ Dispatcher.retry_count (Dispatcher.run p polls n0) = limit)
  /\ (Dispatcher.transient_only (Dispatcher.due_schedule p limit n0) = true
      /\ Dispatcher.all_due p (Dispatcher.due_schedule p limit n0) n0 = true
      /\ List.length (Dispatcher.due_schedule p limit n0) = limit)
  /\ (forall polls t o,
        Dispatcher.status (Dispatcher.run p (polls ++ [(t, o)]) n0)
        = Dispatcher.retry ->
        exists t',
          Dispatcher.next_retry_at (Dispatcher.run p (polls ++ [(t, o)]) n0)
          = Some t' /\ (t < t')%Z)
  /\ (forall polls more,
        Dispatcher.status (Dispatcher.run p polls n0) = Dispatcher.failed ->
        Dispatcher.run p (polls ++ more) n0 = Dispatcher.run p polls n0).
Proof.
  intros Hp Hlimit n0.
  assert (Hb : Dispatcher.in_bounds n0).
  { unfold Dispatcher.in_bounds, n0. cbn. repeat split; try lia. discriminate. }
  split.
  { intros polls. split.
    - apply (run_in_bounds p polls Hb).
    - rewrite run_max_retries. reflexivity. }
  split.
  { intros polls Ht Hd Hlen.
    destruct (@run_transient p polls n0 Ht Hd) as [Hc Hs].
    - cbn. lia.
    - cbn in Hc, Hs. rewrite Hlen in *. split; [|exact Hc].
      rewrite Hs by lia. rewrite Nat.eqb_refl. reflexivity. }
  split.
  { apply due_schedule_ok; [exact Hb | left; reflexivity | cbn; lia]. }
  split.
  { intros polls t o. rewrite run_app. cbn [Dispatcher.run].
    apply attempt_retry_future; [exact Hp|].
    apply run_in_bounds, Hb. }
  intros polls more Hs. rewrite run_app. apply failed_terminal, Hs.
Qed.

Lemma dispatcher_retry_bound_witness :
  let n0 := Dispatcher.fresh 1%Z 10%N (JArr [JStr "ops@example.org"]) "email" 3 in
  let polls := [(0%Z, Dispatcher.TransientFailure); (60%Z, Dispatcher.TransientFailure);
                (180%Z, Dispatcher.TransientFailure)] in
  Dispatcher.status (Dispatcher.run Dispatcher.sample_policy polls n0)
  = Dispatcher.failed
  /\ Dispatcher.retry_count (Dispatcher.run Dispatcher.sample_policy polls n0) = 3.
Proof.
  intros n0 polls.
  assert (Hp : Dispatcher.policy_ok Dispatcher.sample_policy).
  { unfold Dispatcher.policy_ok. cbn. repeat split; try lia. }
  destruct (@dispatcher_retry_bound Dispatcher.sample_policy 1%Z 10%N
              (JArr [JStr "ops@example.org"]) "email" 3 Hp
              ltac:(lia)) as (_ & H & _).
  exact (H polls eq_refl eq_refl eq_refl).
Defined.

(** C7 fails as stated: an entry created with max_retries 0 that fails
    transiently once has retry_count 1, above its max_retries, and stays
    pending instead of failing. *)
Lemma zero_max_retries_exceeded :
  let n0 := Dispatcher.fresh 1%Z 10%N (JArr [JStr "ops@example.org"]) "email" 0 in
  let n1 := Dispatcher.run Dispatcher.sample_policy
              [(0%Z, Dispatcher.TransientFailure)] n0 in
  Dispatcher.retry_count n0 = 0
  /\ Dispatcher.status n0 = Dispatcher.pending
  /\ Dispatcher.max_retries n1 = 0
  /\ Dispatcher.retry_count n1 = 1
  /\ ~ Dispatcher.retry_count n1 <= Dispatcher.max_retries n1
  /\ Dispatcher.status n1 = Dispatcher.pending.
Proof.
  cbn. repeat split; try reflexivity. lia.
Qed.

(** * Further properties *)

(** ** Batch ingestion, case by case *)

Section BatchCases.

Variable env : Env.

Lemma or_empty_py_or (v : option string) :
  or_empty (py_or v (Some "")) = or_empty v.
Proof.
  unfold py_or. destruct v as [h|]; [|reflexivity].
  simpl. destruct (String.eqb_spec h ""); [subst|]; reflexivity.
Qed.

(** The answer and the store of a batch that gets through every check. *)
Lemma telemetry_batch_success (request : Request) (db : DB) (device : Device)
  (key : string) (u : UUID) (items : list json) :
  truthy (META_get request "HTTP_X_DEVICE_ID") = true ->
  META_get request "HTTP_IDEMPOTENCY_KEY" = Some key ->
  key <> "" ->
  request_device env request db = Ok device ->
  parse_uuid env key = Some u ->
  existsb (fun p => (pkt_device p =? dev_id device)%N && (upload_id p =? u)%N)
          (packets db) = false ->
  data request = Ok (JArr items) ->
  content_hash_mismatch env request (META_get request "HTTP_CONTENT_SHA256") = false ->
  column_fits env 128 (or_empty (META_get request "HTTP_CONTENT_SHA256")) = true ->
  telemetry_batch env request db
  = (respond (BCounts (count (stored env device) items) 0
                      (List.length items - count (stored env device) items))
             HTTP_200_OK,
     ingested env request db device u items).
Proof.
  intros Hd Hk Hne Hdev Hu Hnew Hdata Hm Hfit.
  unfold telemetry_batch, telemetry_batch_try.
  rewrite Hd, Hk, (truthy_intro Hne). cbn [andb negb].
  unfold request_device in Hdev. rewrite Hdev.
  cbn [or_empty]. unfold TelemetryPacket_exists. rewrite Hu, Hnew.
  cbn [bind]. rewrite Hdata. cbn [bind].
  rewrite Hm. unfold TelemetryPacket_objects_create.
  rewrite Hu, Hnew, or_empty_py_or, Hfit. cbn [bind].
  rewrite process_batch_spec.
  cbn [devices configurations firmware packets points events
       pkt_id pkt_device upload_id checksum pkt_error_message].
  reflexivity.
Qed.

(** What [telemetry_batch] can do at all: answer a failure and leave the
    store alone, or ingest. *)
Lemma telemetry_batch_cases (request : Request) (db : DB) :
  (snd (telemetry_batch env request db) = db
   /\ (fst (telemetry_batch env request db)
       = respond (BCounts 0 1 0) HTTP_409_CONFLICT
       \/ (exists msg code, code <> HTTP_200_OK
             /\ fst (telemetry_batch env request db) = respond (BError msg) code)
       \/ (exists e, fst (telemetry_batch env request db)
                     = respond (BExc e) HTTP_500_INTERNAL_SERVER_ERROR)))
  \/ (exists device key u items,
        truthy (META_get request "HTTP_X_DEVICE_ID") = true
        /\ META_get request "HTTP_IDEMPOTENCY_KEY" = Some key
        /\ key <> ""
        /\ request_device env request db = Ok device
        /\ parse_uuid env key = Some u
        /\ existsb (fun p => (pkt_device p =? dev_id device)%N
                             && (upload_id p =? u)%N) (packets db) = false
        /\ data request = Ok (JArr items)
        /\ telemetry_batch env request db
           = (respond (BCounts (count (stored env device) items) 0
                         (List.length items - count (stored env device) items))
                      HTTP_200_OK,
              ingested env request db device u items)).
Proof.
  destruct (truthy (META_get request "HTTP_X_DEVICE_ID")) eqn:Hd.
  2:{ left. unfold telemetry_batch, telemetry_batch_try. rewrite Hd. cbn.
      split; [reflexivity|]. right. left. do 2 eexists.
      split; [|reflexivity]. discriminate. }
  destruct (truthy (META_get request "HTTP_IDEMPOTENCY_KEY")) eqn:Hi.
  2:{ left. unfold telemetry_batch, telemetry_batch_try. rewrite Hd, Hi. cbn.
      split; [reflexivity|]. right. left. do 2 eexists.
      split; [|reflexivity]. discriminate. }
  destruct (truthy_some _ Hi) as (key & Hk & Hne).
  destruct (request_device env request db) as [device|e] eqn:Hdev.
  2:{ left. unfold telemetry_batch, telemetry_batch_try. rewrite Hd, Hi.
      cbn [andb negb]. unfold request_device in Hdev. rewrite Hdev.
      destruct e; cbn; (split; [reflexivity|]);
        try (right; right; eexists; reflexivity).
      right. left. do 2 eexists. split; [|reflexivity]. discriminate. }
  destruct (parse_uuid env key) as [u|] eqn:Hu.
  2:{ left. unfold telemetry_batch, telemetry_batch_try. rewrite Hd, Hi.
      cbn [andb negb]. unfold request_device in Hdev. rewrite Hdev, Hk.
      cbn [or_empty]. unfold TelemetryPacket_exists. rewrite Hu. cbn.
      split; [reflexivity|]. right. right. eexists. reflexivity. }
  destruct (existsb (fun p => (pkt_device p =? dev_id device)%N
                              && (upload_id p =? u)%N) (packets db)) eqn:Hex.
  { left. rewrite (@duplicate_answer env request db device Hd Hi Hdev).
    - cbn. auto.
    - rewrite Hk. cbn [or_empty]. unfold TelemetryPacket_exists.
      rewrite Hu, Hex. reflexivity. }
  destruct (data request) as [j|e] eqn:Hdata.
  2:{ left. unfold telemetry_batch, telemetry_batch_try. rewrite Hd, Hi.
      cbn [andb negb]. unfold request_device in Hdev. rewrite Hdev, Hk.
      cbn [or_empty]. unfold TelemetryPacket_exists. rewrite Hu, Hex.
      cbn [bind]. rewrite Hdata. cbn.
      split; [reflexivity|]. right. right. eexists. reflexivity. }
  assert (Hnl : (forall items, j <> JArr items) ->
                telemetry_batch env request db
                = (respond (BError "Batch data must be a list")
                           HTTP_400_BAD_REQUEST, db)).
  { intros Hj. unfold telemetry_batch, telemetry_batch_try. rewrite Hd, Hi.
    cbn [andb negb]. unfold request_device in Hdev. rewrite Hdev, Hk.
    cbn [or_empty]. unfold TelemetryPacket_exists. rewrite Hu, Hex.
    cbn [bind]. rewrite Hdata. cbn [bind].
    destruct j; try reflexivity. exfalso. apply (Hj l). reflexivity. }
  destruct j as [| | | |items|];
    try (left; rewrite Hnl by (intros; discriminate); cbn;
         split; [reflexivity|]; right; left; do 2 eexists;
         split; [|reflexivity]; discriminate).
  clear Hnl.
  destruct (content_hash_mismatch env request
              (META_get request "HTTP_CONTENT_SHA256")) eqn:Hm.
  { left. unfold telemetry_batch, telemetry_batch_try. rewrite Hd, Hi.
    cbn [andb negb]. unfold request_device in Hdev. rewrite Hdev, Hk.
    cbn [or_empty]. unfold TelemetryPacket_exists. rewrite Hu, Hex.
    cbn [bind]. rewrite Hdata. cbn [bind]. rewrite Hm. cbn.
    split; [reflexivity|]. right. left. do 2 eexists.
    split; [|reflexivity]. discriminate. }
  destruct (column_fits env 128
              (or_empty (META_get request "HTTP_CONTENT_SHA256"))) eqn:Hfit.
  - right. exists device, key, u, items.
    repeat (split; [first [assumption | reflexivity]|]).
    apply telemetry_batch_success with (key := key); assumption.
  - left. unfold telemetry_batch, telemetry_batch_try. rewrite Hd, Hi.
    cbn [andb negb]. unfold request_device in Hdev. rewrite Hdev, Hk.
    cbn [or_empty]. unfold TelemetryPacket_exists. rewrite Hu, Hex.
    cbn [bind]. rewrite Hdata. cbn [bind]. rewrite Hm.
    unfold TelemetryPacket_objects_create.
    rewrite Hu, Hex, or_empty_py_or, Hfit. cbn.
    split; [reflexivity|]. right. right. eexists. reflexivity.
Qed.

End BatchCases.

(** ** Rows under a unique key *)

Section UniqueKeys.

Context {A K : Type}.
Variable f : A -> K.

Lemma unique_rows (l : list A) (a b : A) :
  NoDup (map f l) -> In a l -> In b l -> f a = f b -> a = b.
Proof.
  induction l as [|x rest IH]; cbn [map]; intros Hnd Ha Hb E; [destruct Ha|].
  inversion Hnd as [|? ? Hx Hrest]; subst.
  destruct Ha as [<-|Ha], Hb as [<-|Hb].
  - reflexivity.
  - exfalso. apply Hx. rewrite E. apply in_map, Hb.
  - exfalso. apply Hx. rewrite <- E. apply in_map, Ha.
  - apply IH; assumption.
Qed.

(** A filter that only lets through rows with the key of [d] returns [d]
    alone. *)
Lemma filter_unique (p : A -> bool) (l : list A) (d : A) :
  NoDup (map f l) -> In d l -> p d = true ->
  (forall q, In q l -> p q = true -> f q = f d) ->
  filter p l = [d].
Proof.
  induction l as [|x rest IH]; cbn [map filter]; intros Hnd Hin Hp Hk;
    [destruct Hin|].
  inversion Hnd as [|? ? Hx Hrest]; subst.
  assert (Hrest_nil : ~ In d rest -> filter p rest = []).
  { intros Hnot. destruct (filter p rest) as [|y t] eqn:E; [reflexivity|].
    exfalso. assert (Hy : In y (filter p rest)) by (rewrite E; left; reflexivity).
    apply filter_In in Hy. destruct Hy as [Hy Hpy].
    destruct Hin as [<-|Hin]; [|contradiction].
    apply Hx. rewrite <- (Hk y (or_intror Hy) Hpy). apply in_map, Hy. }
  destruct Hin as [<-|Hin].
  - rewrite Hp. f_equal. apply Hrest_nil. intros Hd. apply Hx, in_map, Hd.
  - destruct (p x) eqn:Ex.
    + exfalso. apply Hx. rewrite (Hk x (or_introl eq_refl) Ex). apply in_map, Hin.
    + apply IH; auto. intros q Hq. apply Hk. right. exact Hq.
Qed.

(** Overwriting the rows that carry the key of [d] with a row that agrees
    with [d] under [g] leaves the [g]-image of the table as it was. *)
Lemma map_overwrite {B} (g : A -> B) (same : A -> bool) (l : list A) (d d' : A) :
  NoDup (map f l) -> In d l ->
  (forall q, same q = true -> f q = f d) ->
  g d' = g d ->
  map g (map (fun q => if same q then d' else q) l) = map g l.
Proof.
  intros Hnd Hin Hsame Hg. rewrite map_map. apply map_ext_in.
  intros q Hq. destruct (same q) eqn:E; [|reflexivity].
  rewrite (@unique_rows l q d Hnd Hq Hin (Hsame q E)). exact Hg.
Qed.

(** A lookup by the key of a row of the table finds that row. *)
Lemma find_unique (p : A -> bool) (l : list A) (d : A) :
  NoDup (map f l) -> In d l -> p d = true ->
  (forall q, In q l -> p q = true -> f q = f d) ->
  find p l = Some d.
Proof.
  intros Hnd Hin Hp Hk.
  destruct (find p l) as [q|] eqn:E.
  - apply find_some in E. destruct E as [Hq Hpq].
    f_equal. apply (@unique_rows l q d Hnd Hq Hin (Hk q Hq Hpq)).
  - rewrite (find_none _ _ E d Hin) in Hp. discriminate.
Qed.

Lemma find_pointwise (p q : A -> bool) (l : list A) :
  (forall x, p x = q x) -> find p l = find q l.
Proof.
  intros H. induction l as [|x rest IH]; cbn [find]; [reflexivity|].
  rewrite H, IH. reflexivity.
Qed.

Lemma find_map (B : Type) (h : B -> A) (p : A -> bool) (l : list B) :
  find p (map h l) = option_map h (find (fun b => p (h b)) l).
Proof.
  induction l as [|x rest IH]; cbn [map find]; [reflexivity|].
  destruct (p (h x)); [reflexivity|exact IH].
Qed.

End UniqueKeys.

(** ** Device identity: what a resolved device is *)

Section LookupFacts.

Variable env : Env.

Lemma request_device_filter (request : Request) (db : DB) (d : Device) :
  request_device env request db = Ok d ->
  exists s k,
    META_get request "HTTP_X_DEVICE_ID" = Some s
    /\ parse_uuid env s = Some (dev_id d)
    /\ presented_key request = Some k
    /\ api_key d = k
    /\ In d (devices db).
Proof.
  unfold request_device, Device_objects_get. fold (presented_key request).
  destruct (META_get request "HTTP_X_DEVICE_ID") as [s|] eqn:Hs; [|discriminate].
  destruct (parse_uuid env s) as [u|] eqn:Hpu; [|discriminate].
  destruct (presented_key request) as [k|] eqn:Hpk; [|discriminate].
  destruct (filter _ (devices db)) as [|x [|y t]] eqn:E; try discriminate.
  intros H. injection H as <-.
  assert (Hin : In x (filter (fun d => (dev_id d =? u)%N && (api_key d =? k)%string)
                             (devices db))) by (rewrite E; left; reflexivity).
  apply filter_In in Hin. destruct Hin as [Hin Hp].
  apply andb_prop in Hp. destruct Hp as [Hu Hk].
  apply N.eqb_eq in Hu. apply String.eqb_eq in Hk. subst u.
  exists s, k. repeat split; assumption.
Qed.

Lemma request_device_found (request : Request) (db : DB) (d : Device)
  (s : string) :
  device_ids_unique db ->
  In d (devices db) ->
  META_get request "HTTP_X_DEVICE_ID" = Some s ->
  parse_uuid env s = Some (dev_id d) ->
  presented_key request = Some (api_key d) ->
  request_device env request db = Ok d.
Proof.
  intros Hnd Hin Hs Hu Hk.
  unfold request_device, Device_objects_get. fold (presented_key request).
  rewrite Hs, Hu, Hk.
  rewrite (@filter_unique _ _ dev_id _ (devices db) d Hnd Hin).
  - reflexivity.
  - rewrite N.eqb_refl, String.eqb_refl. reflexivity.
  - intros q _ Hq. apply andb_prop in Hq. destruct Hq as [Hq _].
    apply N.eqb_eq in Hq. exact Hq.
Qed.

(** Saving the resolved device with its identifier and credential unchanged
    keeps it resolvable by the same request. *)
Lemma request_device_after_save (request : Request) (db db' : DB)
  (d d' : Device) :
  device_ids_unique db ->
  request_device env request db = Ok d ->
  dev_id d' = dev_id d -> api_key d' = api_key d ->
  devices db' = devices (save_device d' db) ->
  request_device env request db' = Ok d' /\ device_ids_unique db'.
Proof.
  intros Hnd Hdev Hid Hkey Hdb.
  destruct (request_device_filter _ _ Hdev) as (s & k & Hs & Hu & Hk & Hak & Hin).
  assert (Hids : map dev_id (devices db') = map dev_id (devices db)).
  { rewrite Hdb. cbn [save_device devices].
    apply (@map_overwrite _ _ dev_id _ dev_id (fun q => (dev_id q =? dev_id d')%N)
             (devices db) d d' Hnd Hin).
    - intros q Hq. apply N.eqb_eq in Hq. congruence.
    - exact Hid. }
  assert (Hnd' : device_ids_unique db').
  { unfold device_ids_unique. rewrite Hids. exact Hnd. }
  split; [|exact Hnd'].
  apply request_device_found with (s := s); try assumption.
  - rewrite Hdb. cbn [save_device devices]. apply in_map_iff.
    exists d. split; [|exact Hin]. rewrite Hid, N.eqb_refl. reflexivity.
  - congruence.
  - congruence.
Qed.

End LookupFacts.

(** ** Batch ingestion: errors, frame and composition *)

(** X1: a batch request without a device identifier or without an
    idempotency key (absent or empty) is answered 400 "Missing required
    headers" before the device is looked up, and nothing is written. *)
Theorem telemetry_batch_missing_headers (env : Env) (request : Request) (db : DB) :
  truthy (META_get request "HTTP_X_DEVICE_ID") = false
  \/ truthy (META_get request "HTTP_IDEMPOTENCY_KEY") = false ->
  telemetry_batch env request db
  = (respond (BError "Missing required headers") HTTP_400_BAD_REQUEST, db).
Proof.
  intros H. unfold telemetry_batch, telemetry_batch_try.
  destruct H as [-> | ->]; [reflexivity|].
  rewrite andb_false_r. reflexivity.
Qed.

Lemma telemetry_batch_missing_headers_witness :
  telemetry_batch Sample.env Demo.request_no_key Sample.empty_db
  = (respond (BError "Missing required headers") HTTP_400_BAD_REQUEST,
     Sample.empty_db).
Proof.
  apply telemetry_batch_missing_headers. right. reflexivity.
Defined.

(** X2: [telemetry_batch] writes exactly when it answers 200: under any
    other status the store is returned as it was, and under 200 the ledger
    has one row more. *)
Theorem telemetry_batch_writes_iff_ok (env : Env) (request : Request) (db : DB) :
  (status_code (fst (telemetry_batch env request db)) <> HTTP_200_OK ->
   snd (telemetry_batch env request db) = db)
  /\ (status_code (fst (telemetry_batch env request db)) = HTTP_200_OK ->
      List.length (packets (snd (telemetry_batch env request db)))
      = S (List.length (packets db))).
Proof.
  destruct (telemetry_batch_cases env request db)
    as [[Hdb Hresp] | (device & key & u & items & _ & _ & _ & _ & _ & _ & _ & E)].
  - split; [intros _; exact Hdb|].
    intros H. exfalso.
    destruct Hresp as [R | [(msg & code & Hc & R) | (e & R)]];
      rewrite R in H; cbn in H; [discriminate | contradiction | discriminate].
  - rewrite E. cbn [fst snd]. split.
    + intros H. exfalso. apply H. reflexivity.
    + intros _. unfold ingested. cbn [save_device save_packet packets].
      rewrite length_map, length_app. cbn. lia.
Qed.

Lemma telemetry_batch_writes_iff_ok_witness :
  snd (telemetry_batch Sample.env Sample.request_bad_hash Sample.db_abc)
  = Sample.db_abc
  /\ List.length (packets (snd (telemetry_batch Sample.env Sample.request_abc
                                  Sample.empty_db))) = 1.
Proof.
  split.
  - apply (proj1 (telemetry_batch_writes_iff_ok Sample.env Sample.request_bad_hash
                    Sample.db_abc)).
    discriminate.
  - apply (proj2 (telemetry_batch_writes_iff_ok Sample.env Sample.request_abc
                    Sample.empty_db)).
    reflexivity.
Defined.

(** X3: whenever [telemetry_batch] answers with counts, they are either the
    whole-batch duplicate (accepted 0, duplicates 1, rejected 0, status 409)
    or duplicates 0 with accepted + rejected equal to the number of items of
    the list sent (status 200); duplicates are never partial. *)
Theorem telemetry_batch_counts_shape
  (env : Env) (request : Request) (db : DB) (a d r : nat) :
  resp_body (fst (telemetry_batch env request db)) = BCounts a d r ->
  (a = 0 /\ d = 1 /\ r = 0
   /\ status_code (fst (telemetry_batch env request db)) = HTTP_409_CONFLICT)
  \/ (d = 0
      /\ status_code (fst (telemetry_batch env request db)) = HTTP_200_OK
      /\ exists items, data request = Ok (JArr items)
                       /\ a + r = List.length items).
Proof.
  intros H.
  destruct (telemetry_batch_cases env request db)
    as [[Hdb Hresp] | (device & key & u & items & _ & _ & _ & _ & _ & _ & Hdata & E)].
  - destruct Hresp as [R | [(msg & code & Hc & R) | (e & R)]];
      rewrite R in H |- *; cbn in H; try discriminate.
    injection H as <- <- <-. left. repeat split.
  - rewrite E in H |- *. cbn in H. injection H as <- <- <-.
    right. split; [reflexivity|]. split; [reflexivity|].
    exists items. split; [exact Hdata|].
    pose proof (count_le (stored env device) items). lia.
Qed.

Lemma telemetry_batch_counts_shape_witness :
  (1 = 0 /\ 0 = 1 /\ 1 = 0
   /\ status_code (fst (telemetry_batch Sample.env Sample.request_abc
                          Sample.empty_db)) = HTTP_409_CONFLICT)
  \/ (0 = 0
      /\ status_code (fst (telemetry_batch Sample.env Sample.request_abc
                             Sample.empty_db)) = HTTP_200_OK
      /\ exists items, data Sample.request_abc = Ok (JArr items)
                       /\ 1 + 1 = List.length items).
Proof.
  apply (@telemetry_batch_counts_shape Sample.env Sample.request_abc
           Sample.empty_db 1 0 1).
  reflexivity.
Defined.

Section IngestFacts.

Variable env : Env.

Lemma created_point_device (device : Device) (ts : ts_value) (m v u mt : json)
  (p : TelemetryPoint) :
  TelemetryPoint_objects_create env device ts m v u mt = Ok p ->
  pt_device p = dev_id device.
Proof.
  unfold TelemetryPoint_objects_create.
  destruct (DateTimeField_save env ts); [|discriminate]. cbn [bind].
  destruct (CharField_save env 255 m); [|discriminate]. cbn [bind].
  destruct (FloatField_save env v); [|discriminate]. cbn [bind].
  destruct (CharField_save env 50 u); [|discriminate]. cbn [bind].
  destruct (JSONField_save mt); [|discriminate]. cbn [bind].
  intros H. injection H as <-. reflexivity.
Qed.

Lemma process_item_device (device : Device) (item : json) (p : TelemetryPoint) :
  process_item env device item = Ok p -> pt_device p = dev_id device.
Proof.
  unfold process_item.
  destruct (py_get item "timestamp"); [|discriminate]. cbn [bind].
  destruct (parse_timestamp env a); [|discriminate]. cbn [bind].
  destruct (py_get item "metric"); [|discriminate]. cbn [bind].
  destruct (py_get item "value"); [|discriminate]. cbn [bind].
  destruct (py_get_default item "unit" (JStr "")); [|discriminate]. cbn [bind].
  destruct (py_get_default item "meta" (JObj [])); [|discriminate]. cbn [bind].
  apply created_point_device.
Qed.

(** Every row the loop stores belongs to the device of the request. *)
Lemma stored_points_device (device : Device) (items : list json) :
  Forall (fun p => pt_device p = dev_id device) (stored_points env device items).
Proof.
  apply Forall_forall. intros p Hp. unfold stored_points in Hp.
  apply in_flat_map in Hp. destruct Hp as (item & _ & Hp).
  destruct (process_item env device item) as [q|] eqn:E; [|destruct Hp].
  destruct Hp as [<-|[]]. apply (process_item_device _ _ E).
Qed.

Lemma ingested_devices (request : Request) (db : DB) (device : Device) (u : UUID)
  (items : list json) :
  devices (ingested env request db device u items)
  = devices (save_device
               {| dev_id := dev_id device; serial_number := serial_number device;
                  model := model device; firmware_version := firmware_version device;
                  api_key := api_key device; site := site device;
                  last_seen := Some (now env) |} db).
Proof. reflexivity. Qed.

(** Saving a device whose identifier and site are those of a row of the
    table changes the site of no device. *)
Lemma device_site_after_save (db db' : DB) (d d' : Device) :
  device_ids_unique db -> In d (devices db) ->
  dev_id d' = dev_id d -> site d' = site d ->
  devices db' = devices (save_device d' db) ->
  forall x, device_site db' x = device_site db x.
Proof.
  intros Hnd Hin Hid Hsite Hdb x. unfold device_site. rewrite Hdb.
  cbn [save_device devices]. rewrite find_map.
  assert (Hp : forall q, (dev_id (if (dev_id q =? dev_id d')%N then d' else q) =? x)%N
                         = (dev_id q =? x)%N).
  { intros q. destruct (N.eqb_spec (dev_id q) (dev_id d')) as [E|]; [|reflexivity].
    rewrite E. reflexivity. }
  rewrite (@find_pointwise _ _ _ (devices db) Hp).
  destruct (find (fun q => (dev_id q =? x)%N) (devices db)) as [q|] eqn:E;
    [|reflexivity].
  cbn [option_map]. f_equal.
  destruct (N.eqb_spec (dev_id q) (dev_id d')) as [Eq|]; [|reflexivity].
  apply find_some in E. destruct E as [Hq _].
  rewrite (@unique_rows _ _ dev_id (devices db) q d Hnd Hq Hin) by congruence.
  exact Hsite.
Qed.

End IngestFacts.

(** X4: whatever the request, [telemetry_batch] leaves the firmware,
    configuration and event tables alone, and of the device table (with
    unique identifiers) it changes nothing but a last-seen time: every row
    keeps its identifier, serial number, model, credential, site and
    firmware version. *)
Theorem telemetry_batch_frame (env : Env) (request : Request) (db : DB) :
  device_ids_unique db ->
  firmware (snd (telemetry_batch env request db)) = firmware db
  /\ configurations (snd (telemetry_batch env request db)) = configurations db
  /\ events (snd (telemetry_batch env request db)) = events db
  /\ map device_identity (devices (snd (telemetry_batch env request db)))
     = map device_identity (devices db)
  /\ map firmware_version (devices (snd (telemetry_batch env request db)))
     = map firmware_version (devices db).
Proof.
  intros Hnd.
  destruct (telemetry_batch_cases env request db)
    as [[Hdb _] | (device & key & u & items & _ & _ & _ & Hdev & _ & _ & _ & E)].
  - rewrite Hdb. repeat split.
  - rewrite E. cbn [snd].
    destruct (request_device_filter _ _ _ Hdev) as (_ & _ & _ & _ & _ & _ & Hin).
    repeat split.
    + rewrite ingested_devices. cbn [save_device devices].
      apply (@map_overwrite _ _ dev_id _ device_identity _ (devices db) device _
               Hnd Hin); [|reflexivity].
      intros q Hq. apply N.eqb_eq in Hq. exact Hq.
    + rewrite ingested_devices. cbn [save_device devices].
      apply (@map_overwrite _ _ dev_id _ firmware_version _ (devices db) device _
               Hnd Hin); [|reflexivity].
      intros q Hq. apply N.eqb_eq in Hq. exact Hq.
Qed.

Lemma telemetry_batch_frame_witness :
  firmware (snd (telemetry_batch Sample.env Sample.request_abc Sample.db_ota))
  = firmware Sample.db_ota
  /\ map firmware_version
       (devices (snd (telemetry_batch Sample.env Sample.request_abc Sample.db_ota)))
     = ["1.0.0"; "1.2.0"].
Proof.
  assert (Hnd : device_ids_unique Sample.db_ota).
  { unfold device_ids_unique. cbn. repeat constructor; cbn; intuition discriminate. }
  destruct (@telemetry_batch_frame Sample.env Sample.request_abc Sample.db_ota Hnd)
    as (H1 & _ & _ & _ & H5).
  split; [exact H1 | exact H5].
Defined.

(** X5: the point table is append-only under [telemetry_batch]: the rows
    that were there stay, in order, and every row that is added carries the
    identifier of the device the request resolved to. *)
Theorem telemetry_points_append_only (env : Env) (request : Request) (db : DB) :
  exists new,
    points (snd (telemetry_batch env request db)) = (points db ++ new)%list
    /\ (new = []
        \/ exists device, request_device env request db = Ok device
                          /\ Forall (fun p => pt_device p = dev_id device) new).
Proof.
  destruct (telemetry_batch_cases env request db)
    as [[Hdb _] | (device & key & u & items & _ & _ & _ & Hdev & _ & _ & _ & E)].
  - exists []. rewrite Hdb, app_nil_r. auto.
  - exists (stored_points env device items). rewrite E. cbn [snd].
    split; [reflexivity|]. right. exists device.
    split; [exact Hdev | apply stored_points_device].
Qed.

(** X6: a batch that was answered 200 and is sent again unchanged is
    answered as a duplicate (accepted 0, duplicates 1, rejected 0, status
    409) and the store stays as the first submission left it. *)
Theorem telemetry_batch_resubmission (env : Env) (request : Request) (db : DB) :
  device_ids_unique db ->
  status_code (fst (telemetry_batch env request db)) = HTTP_200_OK ->
  telemetry_batch env request (snd (telemetry_batch env request db))
  = (respond (BCounts 0 1 0) HTTP_409_CONFLICT,
     snd (telemetry_batch env request db)).
Proof.
  intros Hnd Hok.
  destruct (telemetry_batch_cases env request db)
    as [[Hdb Hresp]
       | (device & key & u & items & Hd & Hk & Hne & Hdev & Hu & _ & _ & E)].
  - exfalso.
    destruct Hresp as [R | [(msg & code & Hc & R) | (e & R)]];
      rewrite R in Hok; cbn in Hok; [discriminate | contradiction | discriminate].
  - rewrite E. cbn [snd].
    set (device' := {| dev_id := dev_id device; serial_number := serial_number device;
                       model := model device;
                       firmware_version := firmware_version device;
                       api_key := api_key device; site := site device;
                       last_seen := Some (now env) |}).
    destruct (@request_device_after_save env request db
                (ingested env request db device u items) device device'
                Hnd Hdev eq_refl eq_refl (ingested_devices _ _ _ _ _ _))
      as [Hdev' _].
    apply duplicate_answer with (device := device'); try assumption.
    + rewrite Hk. apply truthy_intro, Hne.
    + rewrite Hk. cbn [or_empty]. apply ledger_row_exists with (u := u);
        [exact Hu|].
      eexists. split.
      * unfold ingested. cbn [save_device save_packet packets].
        rewrite map_app. apply in_or_app. right. cbn [map pkt_id].
        rewrite N.eqb_refl. left. reflexivity.
      * split; reflexivity.
Qed.

Lemma telemetry_batch_resubmission_witness :
  telemetry_batch Sample.env Sample.request_abc
    (snd (telemetry_batch Sample.env Sample.request_abc Sample.empty_db))
  = (respond (BCounts 0 1 0) HTTP_409_CONFLICT,
     snd (telemetry_batch Sample.env Sample.request_abc Sample.empty_db)).
Proof.
  apply telemetry_batch_resubmission.
  - unfold device_ids_unique. cbn. repeat constructor. intros [].
  - reflexivity.
Defined.

(** X7: [telemetry_batch] keeps the ledger's uniqueness on (device, upload
    id): when the pairs of the ledger are distinct and the new primary key
    is fresh, they are distinct afterwards, and no row that was in the
    ledger is changed. *)
Theorem telemetry_batch_keeps_ledger_unique
  (env : Env) (request : Request) (db : DB) :
  ledger_unique db ->
  ~ In (uuid4 env) (map pkt_id (packets db)) ->
  ledger_unique (snd (telemetry_batch env request db))
  /\ exists new, packets (snd (telemetry_batch env request db))
                 = (packets db ++ new)%list.
Proof.
  intros Huniq Hfresh.
  destruct (telemetry_batch_cases env request db)
    as [[Hdb _] | (device & key & u & items & _ & _ & _ & _ & _ & Hex & _ & E)].
  - rewrite Hdb. split; [exact Huniq|]. exists []. rewrite app_nil_r. reflexivity.
  - rewrite E. cbn [snd].
    assert (Hp : packets (ingested env request db device u items)
                 = (packets db ++
                    [{| pkt_id := uuid4 env; pkt_device := dev_id device;
                        upload_id := u;
                        checksum := or_empty (META_get request "HTTP_CONTENT_SHA256");
                        pkt_status := processed;
                        record_count := count (stored env device) items;
                        processed_at := Some (now env);
                        pkt_error_message := "" |}])%list).
    { unfold ingested. cbn [save_device save_packet packets].
      rewrite map_app. cbn [map pkt_id]. rewrite N.eqb_refl. f_equal.
      rewrite <- (map_id (packets db)) at 2. apply map_ext_in.
      intros q Hq. destruct (N.eqb_spec (pkt_id q) (uuid4 env)) as [Eq|];
        [|reflexivity].
      exfalso. apply Hfresh. rewrite <- Eq. apply in_map, Hq. }
    split; [|eexists; exact Hp].
    unfold ledger_unique. rewrite Hp, map_app. cbn [map ledger_key].
    apply NoDup_app; [exact Huniq | repeat constructor; intros [] |].
    intros a Ha [<-|[]]. apply in_map_iff in Ha.
    destruct Ha as (q & Hkq & Hq). unfold ledger_key in Hkq.
    cbn [pkt_device upload_id] in Hkq. injection Hkq as Hd Hu.
    assert (Ht : existsb (fun p => (pkt_device p =? dev_id device)%N
                                   && (upload_id p =? u)%N) (packets db) = true).
    { apply existsb_exists. exists q. split; [exact Hq|].
      rewrite Hd, Hu, !N.eqb_refl. reflexivity. }
    congruence.
Qed.

Lemma telemetry_batch_keeps_ledger_unique_witness :
  ledger_unique (snd (telemetry_batch Sample.env Sample.request_abc
                        Sample.empty_db))
  /\ exists new, packets (snd (telemetry_batch Sample.env Sample.request_abc
                                 Sample.empty_db))
                 = (packets Sample.empty_db ++ new)%list.
Proof.
  apply telemetry_batch_keeps_ledger_unique.
  - unfold ledger_unique. cbn. constructor.
  - cbn. intros [].
Defined.

(** ** Who sees the ingested points *)

(** X8: after a batch of a resolved device, a viewer's list of telemetry
    points is the list they had before followed by all the points the batch
    added when the viewer is authenticated and the device's site is one of
    the viewer's sites, and exactly the list they had before otherwise. *)
Theorem ingested_points_visible_by_site
  (env : Env) (request viewer : Request) (db : DB) (device : Device) :
  device_ids_unique db ->
  request_device env request db = Ok device ->
  exists new,
    points (snd (telemetry_batch env request db)) = (points db ++ new)%list
    /\ TelemetryPoint_get_queryset viewer (snd (telemetry_batch env request db))
       = (TelemetryPoint_get_queryset viewer db
          ++ (if is_authenticated (user viewer)
                 && existsb (Z.eqb (site device)) (sites (user viewer))
              then new else []))%list.
Proof.
  intros Hnd Hdev.
  destruct (telemetry_batch_cases env request db)
    as [[Hdb _] | (device0 & key & u & items & _ & _ & _ & Hdev0 & _ & _ & _ & E)].
  - exists []. rewrite Hdb, app_nil_r. split; [reflexivity|].
    destruct (_ && _); rewrite app_nil_r; reflexivity.
  - assert (device0 = device) by congruence. subst device0.
    exists (stored_points env device items). rewrite E. cbn [snd].
    split; [reflexivity|].
    destruct (request_device_filter _ _ _ Hdev) as (_ & _ & _ & _ & _ & _ & Hin).
    pose proof (@device_site_after_save db (ingested env request db device u items)
                  device
                  {| dev_id := dev_id device; serial_number := serial_number device;
                     model := model device;
                     firmware_version := firmware_version device;
                     api_key := api_key device; site := site device;
                     last_seen := Some (now env) |}
                  Hnd Hin eq_refl eq_refl
                  (ingested_devices env request db device u items)) as Hsite.
    unfold TelemetryPoint_get_queryset.
    destruct (is_authenticated (user viewer)); [|reflexivity].
    cbn [andb].
    assert (Hvis : forall x, site_visible viewer
                               (ingested env request db device u items) x
                             = site_visible viewer db x).
    { intros x. unfold site_visible. rewrite Hsite. reflexivity. }
    rewrite (filter_ext _ _ (fun p => Hvis (pt_device p))).
    change (points (ingested env request db device u items))
      with (points db ++ stored_points env device items)%list.
    rewrite filter_app. f_equal.
    assert (Hd : site_visible viewer db (dev_id device)
                 = existsb (Z.eqb (site device)) (sites (user viewer))).
    { unfold site_visible, device_site.
      rewrite (@find_unique _ _ dev_id _ (devices db) device Hnd Hin).
      - reflexivity.
      - apply N.eqb_refl.
      - intros q _ Hq. apply N.eqb_eq in Hq. exact Hq. }
    pose proof (stored_points_device env device items) as Hall.
    induction Hall as [|p rest Hp _ IH]; cbn [filter].
    + destruct (existsb _ _); reflexivity.
    + rewrite Hp, Hd, IH. destruct (existsb _ _); reflexivity.
Qed.

Lemma ingested_points_visible_by_site_witness :
  List.length (TelemetryPoint_get_queryset Demo.viewer_7
                 (snd (telemetry_batch Sample.env Sample.request_abc Sample.empty_db)))
  = 1
  /\ TelemetryPoint_get_queryset Demo.viewer_8
       (snd (telemetry_batch Sample.env Sample.request_abc Sample.empty_db)) = [].
Proof.
  assert (Hnd : device_ids_unique Sample.empty_db).
  { unfold device_ids_unique. cbn. repeat constructor. intros []. }
  split.
  - destruct (@ingested_points_visible_by_site Sample.env Sample.request_abc
                Demo.viewer_7 Sample.empty_db Sample.device_D Hnd eq_refl)
      as (new & Hp & Hq).
    rewrite Hq. cbn in Hp |- *. rewrite <- Hp. reflexivity.
  - destruct (@ingested_points_visible_by_site Sample.env Sample.request_abc
                Demo.viewer_8 Sample.empty_db Sample.device_D Hnd eq_refl)
      as (new & _ & Hq).
    rewrite Hq. reflexivity.
Defined.

(** ** Device identity: soundness, completeness and bad identifiers *)

(** X9: a request resolves to a device only if that device is in the table,
    the X-Device-ID header parses to its identifier and the presented
    credential equals its API key, where the credential is the X-Auth-Key
    header when that is present and not empty and the X-API-Key header
    otherwise. *)
Theorem request_device_sound
  (env : Env) (request : Request) (db : DB) (d : Device) :
  request_device env request db = Ok d ->
  In d (devices db)
  /\ (exists s, META_get request "HTTP_X_DEVICE_ID" = Some s
                /\ parse_uuid env s = Some (dev_id d))
  /\ (truthy (META_get request "HTTP_X_AUTH_KEY") = true ->
      META_get request "HTTP_X_AUTH_KEY" = Some (api_key d))
  /\ (truthy (META_get request "HTTP_X_AUTH_KEY") = false ->
      META_get request "HTTP_X_API_KEY" = Some (api_key d)).
Proof.
  intros H.
  destruct (request_device_filter _ _ _ H) as (s & k & Hs & Hu & Hk & Hak & Hin).
  split; [exact Hin|]. split; [eauto|].
  unfold presented_key, py_or in Hk. subst k.
  split; intros Ht; rewrite Ht in Hk; exact Hk.
Qed.

Lemma request_device_sound_witness :
  In Sample.device_D (devices Sample.empty_db)
  /\ (exists s, META_get Sample.request_abc "HTTP_X_DEVICE_ID" = Some s
                /\ parse_uuid Sample.env s = Some 1%N)
  /\ (truthy (META_get Sample.request_abc "HTTP_X_AUTH_KEY") = true ->
      META_get Sample.request_abc "HTTP_X_AUTH_KEY" = Some "key-D")
  /\ (truthy (META_get Sample.request_abc "HTTP_X_AUTH_KEY") = false ->
      META_get Sample.request_abc "HTTP_X_API_KEY" = Some "key-D").
Proof.
  apply (@request_device_sound Sample.env Sample.request_abc Sample.empty_db
           Sample.device_D).
  reflexivity.
Defined.

(** X10: with unique device identifiers, a request whose X-Device-ID parses
    to the identifier of a device of the table and whose credential equals
    that device's API key resolves to that device. *)
Theorem request_device_complete
  (env : Env) (request : Request) (db : DB) (d : Device) (s : string) :
  device_ids_unique db ->
  In d (devices db) ->
  META_get request "HTTP_X_DEVICE_ID" = Some s ->
  parse_uuid env s = Some (dev_id d) ->
  presented_key request = Some (api_key d) ->
  request_device env request db = Ok d.
Proof.
  intros. apply request_device_found with (s := s); assumption.
Qed.

Lemma request_device_complete_witness :
  request_device Sample.env Sample.request_ota_E Sample.db_ota = Ok Sample.device_E.
Proof.
  apply (@request_device_complete Sample.env Sample.request_ota_E Sample.db_ota
           Sample.device_E "3").
  - unfold device_ids_unique. cbn. repeat constructor; cbn; intuition discriminate.
  - right. left. reflexivity.
  - reflexivity.
  - reflexivity.
  - reflexivity.
Defined.

(** X11: a device identifier that is not a UUID is a server error in every
    device-facing view, not an authentication failure: batch ingest answers
    500 through its catch-all handler, and config fetch, OTA check and OTA
    report let the validation error escape; nothing is written. *)
Theorem malformed_device_id_is_server_error
  (env : Env) (request : Request) (db : DB) (s : string) :
  META_get request "HTTP_X_DEVICE_ID" = Some s ->
  s <> "" ->
  parse_uuid env s = None ->
  (truthy (META_get request "HTTP_IDEMPOTENCY_KEY") = true ->
   telemetry_batch env request db
   = (respond (BExc ValidationError) HTTP_500_INTERNAL_SERVER_ERROR, db))
  /\ get_config env request db
     = (respond (BExc ValidationError) HTTP_500_INTERNAL_SERVER_ERROR, db)
  /\ ota_check env request db
     = (respond (BExc ValidationError) HTTP_500_INTERNAL_SERVER_ERROR, db)
  /\ ota_report env request db
     = (respond (BExc ValidationError) HTTP_500_INTERNAL_SERVER_ERROR, db).
Proof.
  intros Hs Hne Hu.
  assert (E : request_device env request db = Raise ValidationError).
  { unfold request_device, Device_objects_get. rewrite Hs, Hu. reflexivity. }
  split.
  - intros Hi. unfold telemetry_batch, telemetry_batch_try.
    rewrite Hs, (truthy_intro Hne), Hi. cbn [andb negb].
    rewrite <- Hs. unfold request_device in E. rewrite E. reflexivity.
  - unfold get_config, ota_check, ota_report. rewrite E. repeat split.
Qed.

Lemma malformed_device_id_is_server_error_witness :
  get_config Sample.env Demo.request_bad_id Sample.empty_db
  = (respond (BExc ValidationError) HTTP_500_INTERNAL_SERVER_ERROR, Sample.empty_db)
  /\ telemetry_batch Sample.env Demo.request_bad_id Sample.empty_db
     = (respond (BExc ValidationError) HTTP_500_INTERNAL_SERVER_ERROR,
        Sample.empty_db).
Proof.
  destruct (@malformed_device_id_is_server_error Sample.env Demo.request_bad_id
              Sample.empty_db "not-a-uuid" eq_refl ltac:(discriminate) eq_refl)
    as (H1 & H2 & _).
  split; [exact H2 | exact (H1 eq_refl)].
Defined.

(** ** Bodies that are not a list of readings *)

(** X12: for an authenticated batch that is no duplicate, a body that
    cannot be parsed is answered 500 (the parse error is caught by the
    catch-all handler) and a body that parses to anything but a list is
    answered 400 "Batch data must be a list", whatever hash is declared;
    neither writes anything. *)
Theorem telemetry_batch_body_errors
  (env : Env) (request : Request) (db : DB) (device : Device) (key : string) :
  truthy (META_get request "HTTP_X_DEVICE_ID") = true ->
  META_get request "HTTP_IDEMPOTENCY_KEY" = Some key ->
  key <> "" ->
  request_device env request db = Ok device ->
  TelemetryPacket_exists env db device key = Ok false ->
  (forall e, data request = Raise e ->
     telemetry_batch env request db
     = (respond (BExc e) HTTP_500_INTERNAL_SERVER_ERROR, db))
  /\ (forall j, data request = Ok j -> (forall items, j <> JArr items) ->
        telemetry_batch env request db
        = (respond (BError "Batch data must be a list") HTTP_400_BAD_REQUEST, db)).
Proof.
  intros Hd Hk Hne Hdev Hex.
  split.
  - intros e Hdata. unfold telemetry_batch, telemetry_batch_try.
    rewrite Hd, Hk, (truthy_intro Hne). cbn [andb negb].
    unfold request_device in Hdev. rewrite Hdev. cbn [or_empty].
    rewrite Hex. cbn [bind]. rewrite Hdata. reflexivity.
  - intros j Hdata Hj. unfold telemetry_batch, telemetry_batch_try.
    rewrite Hd, Hk, (truthy_intro Hne). cbn [andb negb].
    unfold request_device in Hdev. rewrite Hdev. cbn [or_empty].
    rewrite Hex. cbn [bind]. rewrite Hdata. cbn [bind].
    destruct j; try reflexivity. exfalso. apply (Hj l). reflexivity.
Qed.

Lemma telemetry_batch_body_errors_witness :
  telemetry_batch Sample.env Demo.request_unparsable Sample.empty_db
  = (respond (BExc ParseError) HTTP_500_INTERNAL_SERVER_ERROR, Sample.empty_db)
  /\ telemetry_batch Sample.env Demo.request_object_body Sample.empty_db
     = (respond (BError "Batch data must be a list") HTTP_400_BAD_REQUEST,
        Sample.empty_db).
Proof.
  split.
  - destruct (@telemetry_batch_body_errors Sample.env Demo.request_unparsable
                Sample.empty_db Sample.device_D "81" eq_refl eq_refl
                ltac:(discriminate) eq_refl eq_refl) as [H _].
    exact (H ParseError eq_refl).
  - destruct (@telemetry_batch_body_errors Sample.env Demo.request_object_body
                Sample.empty_db Sample.device_D "81" eq_refl eq_refl
                ltac:(discriminate) eq_refl eq_refl) as [_ H].
    apply (H _ eq_refl). intros items. discriminate.
Defined.

(** ** Configuration and OTA views *)

(** X13: config fetch never returns another device's configuration and
    never writes: for a resolved device the answer is 200 with either the
    four fields of a configuration row of that very device or, when the
    device has no configuration row, the empty defaults. *)
Theorem get_config_own_configuration
  (env : Env) (request : Request) (db : DB) (device : Device) :
  request_device env request db = Ok device ->
  snd (get_config env request db) = db
  /\ ((exists c, In c (configurations db) /\ cfg_device c = dev_id device
                 /\ fst (get_config env request db)
                    = respond (BConfig (sampling_rates c) (thresholds c)
                                       (ntp_servers c) (endpoints c)) HTTP_200_OK)
      \/ ((forall c, In c (configurations db) -> cfg_device c <> dev_id device)
          /\ fst (get_config env request db)
             = respond (BConfig (JObj []) (JObj []) (JArr []) (JObj []))
                       HTTP_200_OK)).
Proof.
  intros Hdev. unfold get_config. rewrite Hdev.
  destruct (find (fun c => (cfg_device c =? dev_id device)%N) (configurations db))
    as [c|] eqn:E.
  - apply find_some in E. destruct E as [Hin Hc]. apply N.eqb_eq in Hc.
    split; [reflexivity|]. left. exists c. auto.
  - split; [reflexivity|]. right. split; [|reflexivity].
    intros c Hc Heq. pose proof (find_none _ _ E c Hc) as Hn. cbn in Hn.
    rewrite Heq, N.eqb_refl in Hn. discriminate.
Qed.

Lemma get_config_own_configuration_witness :
  snd (get_config Sample.env Sample.request_ota_D Demo.db_config) = Demo.db_config
  /\ ((exists c, In c (configurations Demo.db_config)
                 /\ cfg_device c = dev_id Sample.device_D
                 /\ fst (get_config Sample.env Sample.request_ota_D Demo.db_config)
                    = respond (BConfig (sampling_rates c) (thresholds c)
                                       (ntp_servers c) (endpoints c)) HTTP_200_OK)
      \/ ((forall c, In c (configurations Demo.db_config) ->
                     cfg_device c <> dev_id Sample.device_D)
          /\ fst (get_config Sample.env Sample.request_ota_D Demo.db_config)
             = respond (BConfig (JObj []) (JObj []) (JArr []) (JObj []))
                       HTTP_200_OK)).
Proof.
  apply (@get_config_own_configuration Sample.env Sample.request_ota_D
           Demo.db_config Sample.device_D).
  reflexivity.
Defined.

(** X14: when no bundle of the table lists the device's model (in
    particular when the table is empty), [ota_check] answers not available
    with the device's current version and writes nothing. *)
Theorem ota_check_nothing_for_model
  (env : Env) (request : Request) (db : DB) (device : Device) :
  request_device env request db = Ok device ->
  (forall b, In b (firmware db) -> ~ In (model device) (supported_models b)) ->
  ota_check env request db
  = (respond (BUnavailable (firmware_version device)) HTTP_200_OK, db).
Proof.
  intros Hdev Hnone. rewrite (ota_check_answer env request db Hdev).
  assert (E : latest_firmware db device = None).
  { apply latest_firmware_none. intros b Hb.
    destruct (firmware_matches device b) eqn:Em; [|reflexivity].
    apply firmware_matches_spec in Em. destruct Em as [Hm _].
    exfalso. apply (Hnone b Hb Hm). }
  rewrite E. reflexivity.
Qed.

Lemma ota_check_nothing_for_model_witness :
  ota_check Sample.env Sample.request_ota_D Sample.empty_db
  = (respond (BUnavailable "1.0.0") HTTP_200_OK, Sample.empty_db).
Proof.
  apply (@ota_check_nothing_for_model Sample.env Sample.request_ota_D
           Sample.empty_db Sample.device_D eq_refl).
  intros b [].
Defined.

Section OtaReportFacts.

Variable env : Env.

Lemma ota_event_facts (device : Device) (d : json) (ev : SystemEvent)
  (st ver : json) :
  ota_event env device d = Ok (ev, st, ver) ->
  ev_device ev = dev_id device /\ status ev = active
  /\ resolved_at ev = None /\ resolved_by ev = None
  /\ severity ev = ota_severity st
  /\ st = field d "status" /\ ver = field d "version".
Proof.
  unfold ota_event. destruct d as [| | | | |kv]; try discriminate.
  cbn [py_get py_get_default bind field].
  unfold SystemEvent_objects_create.
  destruct (column_fits env 255 _); [|discriminate]. cbn [bind].
  intros H. injection H as <- <- <-. repeat split.
Qed.

(** What [ota_report] can do to the store. *)
Lemma ota_report_cases (request : Request) (db : DB) :
  snd (ota_report env request db) = db
  \/ exists device d ev st ver,
       request_device env request db = Ok device
       /\ data request = Ok d
       /\ ota_event env device d = Ok (ev, st, ver)
       /\ (snd (ota_report env request db) = add_event ev db
           \/ (json_eq_str st "completed" && json_truthy ver = true
               /\ snd (ota_report env request db)
                  = save_device
                      {| dev_id := dev_id device;
                         serial_number := serial_number device;
                         model := model device;
                         firmware_version := py_str env ver;
                         api_key := api_key device; site := site device;
                         last_seen := last_seen device |}
                      (add_event ev db)
               /\ fst (ota_report env request db) = respond BReported HTTP_200_OK)).
Proof.
  unfold ota_report.
  destruct (request_device env request db) as [device|e] eqn:Hdev; [|left; reflexivity].
  destruct (data request) as [d|e] eqn:Hdata; [|left; reflexivity].
  cbn [bind].
  destruct (ota_event env device d) as [[[ev st] ver]|e] eqn:Hev; [|left; reflexivity].
  right. exists device, d, ev, st, ver.
  repeat (split; [first [reflexivity | assumption]|]).
  destruct (json_eq_str st "completed" && json_truthy ver) eqn:Ec;
    [|left; reflexivity].
  unfold CharField_save.
  destruct ver; try (apply andb_prop in Ec; destruct Ec; discriminate);
    (destruct (column_fits env 100 _);
     [right; repeat split | left; reflexivity]).
Qed.

End OtaReportFacts.

(** X15: an OTA report never touches the ledger, the points, the firmware
    table or the configurations, keeps the identifier, serial number, model,
    credential and site of every device (with unique identifiers), and adds
    at most one event, which belongs to the reporting device and is
    active. *)
Theorem ota_report_frame (env : Env) (request : Request) (db : DB) :
  device_ids_unique db ->
  packets (snd (ota_report env request db)) = packets db
  /\ points (snd (ota_report env request db)) = points db
  /\ firmware (snd (ota_report env request db)) = firmware db
  /\ configurations (snd (ota_report env request db)) = configurations db
  /\ map device_identity (devices (snd (ota_report env request db)))
     = map device_identity (devices db)
  /\ (events (snd (ota_report env request db)) = events db
      \/ exists device ev,
           request_device env request db = Ok device
           /\ events (snd (ota_report env request db)) = (events db ++ [ev])%list
           /\ ev_device ev = dev_id device /\ status ev = active).
Proof.
  intros Hnd.
  destruct (ota_report_cases env request db)
    as [E | (device & d & ev & st & ver & Hdev & _ & Hev & [E | (_ & E & _)])].
  - rewrite E. repeat split. left. reflexivity.
  - rewrite E. repeat split. right. exists device, ev.
    destruct (ota_event_facts _ _ _ Hev) as (H1 & H2 & _).
    repeat split; assumption.
  - rewrite E. cbn [save_device add_event packets points firmware configurations
                    devices events].
    destruct (request_device_filter _ _ _ Hdev) as (_ & _ & _ & _ & _ & _ & Hin).
    repeat split.
    + apply (@map_overwrite _ _ dev_id _ device_identity _ (devices db) device _
               Hnd Hin); [|reflexivity].
      intros q Hq. apply N.eqb_eq in Hq. exact Hq.
    + right. exists device, ev.
      destruct (ota_event_facts _ _ _ Hev) as (H1 & H2 & _).
      repeat split; assumption.
Qed.

Lemma ota_report_frame_witness :
  packets (snd (ota_report Sample.env Demo.request_ota_failed Sample.db_ota))
  = packets Sample.db_ota
  /\ map device_identity
       (devices (snd (ota_report Sample.env Demo.request_ota_failed Sample.db_ota)))
     = map device_identity (devices Sample.db_ota).
Proof.
  assert (Hnd : device_ids_unique Sample.db_ota).
  { unfold device_ids_unique. cbn. repeat constructor; cbn; intuition discriminate. }
  destruct (@ota_report_frame Sample.env Demo.request_ota_failed Sample.db_ota Hnd)
    as (H1 & _ & _ & _ & H5 & _).
  split; [exact H1 | exact H5].
Defined.

(** X16: after a device has reported the completed update to version v,
    its next OTA check is answered from v: when the newest bundle matching
    the device at v has version v, the check reports not available with
    current version v. *)
Theorem ota_report_then_check
  (env : Env) (request : Request) (db : DB) (device : Device)
  (kv : list (string * json)) (v : string) (fw : FirmwareBundle) :
  device_ids_unique db ->
  request_device env request db = Ok device ->
  data request = Ok (JObj kv) ->
  field (JObj kv) "status" = JStr "completed" ->
  field (JObj kv) "version" = JStr v ->
  v <> "" ->
  column_fits env 255 "ota_completed" = true ->
  column_fits env 100 v = true ->
  latest_firmware db
    {| dev_id := dev_id device; serial_number := serial_number device;
       model := model device; firmware_version := v;
       api_key := api_key device; site := site device;
       last_seen := last_seen device |} = Some fw ->
  version fw = v ->
  ota_check env request (snd (ota_report env request db))
  = (respond (BUnavailable v) HTTP_200_OK, snd (ota_report env request db)).
Proof.
  intros Hnd Hdev Hdata Hst Hver Hne Hfit Hfit' Hfw Hv.
  set (device' := {| dev_id := dev_id device; serial_number := serial_number device;
                     model := model device; firmware_version := v;
                     api_key := api_key device; site := site device;
                     last_seen := last_seen device |}) in *.
  assert (E : exists ev, snd (ota_report env request db)
                         = save_device device' (add_event ev db)).
  { unfold ota_report. rewrite Hdev, Hdata. cbn [bind].
    unfold ota_event. cbn [py_get py_get_default bind].
    fold (field (JObj kv) "status"). fold (field (JObj kv) "version").
    rewrite Hst, Hver. cbn [py_str append].
    unfold SystemEvent_objects_create. rewrite Hfit. cbn [bind].
    cbn [json_eq_str json_truthy]. rewrite String.eqb_refl.
    destruct (String.eqb_spec v ""); [contradiction|]. cbn [negb andb].
    unfold CharField_save. cbn [py_str]. rewrite Hfit'.
    eexists. reflexivity. }
  destruct E as [ev E]. rewrite E.
  destruct (@request_device_after_save env request db
              (save_device device' (add_event ev db)) device device'
              Hnd Hdev eq_refl eq_refl eq_refl) as [Hdev' _].
  rewrite (ota_check_answer env request _ Hdev').
  change (latest_firmware (save_device device' (add_event ev db)) device')
    with (latest_firmware db device').
  rewrite Hfw, Hv. cbn [firmware_version device']. rewrite String.eqb_refl.
  reflexivity.
Qed.

Lemma ota_report_then_check_witness :
  ota_check Sample.env Sample.request_ota_completed
    (snd (ota_report Sample.env Sample.request_ota_completed Sample.db_ota))
  = (respond (BUnavailable "1.2.0") HTTP_200_OK,
     snd (ota_report Sample.env Sample.request_ota_completed Sample.db_ota)).
Proof.
  apply (@ota_report_then_check Sample.env Sample.request_ota_completed
           Sample.db_ota Sample.device_D
           [("status", JStr "completed"); ("version", JStr "1.2.0")]
           "1.2.0" Sample.bundle_120).
  - unfold device_ids_unique. cbn. repeat constructor; cbn; intuition discriminate.
  - reflexivity.
  - reflexivity.
  - reflexivity.
  - reflexivity.
  - discriminate.
  - reflexivity.
  - reflexivity.
  - reflexivity.
  - reflexivity.
Defined.

(** ** Event actions: visibility, repetition and frame *)

Section EventActionFacts.

Variable env : Env.

Lemma get_object_found (request : Request) (pk : UUID) (db : DB) (event : SystemEvent) :
  get_object request pk db = Ok event ->
  In event (events db) /\ ev_id event = pk
  /\ is_authenticated (user request) = true
  /\ site_visible request db (ev_device event) = true.
Proof.
  unfold get_object, get_queryset.
  destruct (find _ _) as [e|] eqn:E; [|discriminate].
  intros H. injection H as <-. apply find_some in E. destruct E as [Hin Hid].
  apply N.eqb_eq in Hid.
  destruct (is_authenticated (user request)); [|destruct Hin].
  apply filter_In in Hin. destruct Hin as [Hin Hvis]. auto.
Qed.



(** What one action can do to the store. *)
Lemma run_call_cases (c : EventCall) (db : DB) :
  run_call env c db = db
  \/ exists event event',
       In event (events db)
       /\ event_facts event' = event_facts event
       /\ run_call env c db = save_event event' db.
Proof.
  destruct c as [request pk|request pk]; cbn [run_call].
  - unfold acknowledge. destruct (get_object request pk db) as [event|e] eqn:E;
      [|left; reflexivity].
    right. exists event, (set_acknowledged event).
    destruct (get_object_found _ _ _ E) as (Hin & _). repeat split. exact Hin.
  - unfold resolve. destruct (get_object request pk db) as [event|e] eqn:E;
      [|left; reflexivity].
    destruct (d <- data request;; ra <- py_get d "resolved_at";;
              DateTimeField_to_python env ra) as [at_|e]; [|left; reflexivity].
    right. exists event, (set_resolved at_ (user_id (user request)) event).
    destruct (get_object_found _ _ _ E) as (Hin & _). repeat split. exact Hin.
Qed.

Lemma save_event_frame (db : DB) (event event' : SystemEvent) :
  event_ids_unique db -> In event (events db) ->
  event_facts event' = event_facts event ->
  map event_facts (events (save_event event' db)) = map event_facts (events db)
  /\ event_ids_unique (save_event event' db).
Proof.
  intros Hnd Hin Hf.
  assert (Hid : ev_id event' = ev_id event).
  { unfold event_facts in Hf. congruence. }
  split.
  - cbn [save_event events].
    apply (@map_overwrite _ _ ev_id _ event_facts _ (events db) event _ Hnd Hin);
      [|exact Hf].
    intros q Hq. apply N.eqb_eq in Hq. congruence.
  - unfold event_ids_unique. cbn [save_event events].
    rewrite (@map_overwrite _ _ ev_id _ ev_id (fun q => (ev_id q =? ev_id event')%N)
               (events db) event event' Hnd Hin); [exact Hnd| |exact Hid].
    intros q Hq. apply N.eqb_eq in Hq. congruence.
Qed.

End EventActionFacts.

(** X17: an event that the requesting user cannot see, because the user is
    not authenticated or because the event's device is on none of the
    user's sites, can be neither acknowledged nor resolved: both actions
    answer 404 and leave the store unchanged. *)
Theorem event_actions_hidden_event
  (env : Env) (request : Request) (pk : UUID) (db : DB) :
  is_authenticated (user request) = false
  \/ (forall e, In e (events db) -> ev_id e = pk ->
                site_visible request db (ev_device e) = false) ->
  acknowledge request pk db = (respond (BExc Http404) HTTP_404_NOT_FOUND, db)
  /\ resolve env request pk db = (respond (BExc Http404) HTTP_404_NOT_FOUND, db).
Proof.
  intros H.
  assert (E : get_object request pk db = Raise Http404).
  { destruct (get_object request pk db) as [event|e] eqn:E.
    - exfalso. destruct (get_object_found _ _ _ E) as (Hin & Hpk & Hauth & Hvis).
      destruct H as [H|H]; [congruence|].
      rewrite (H event Hin Hpk) in Hvis. discriminate.
    - unfold get_object in E. destruct (find _ _); [discriminate|].
      congruence. }
  unfold acknowledge, resolve. rewrite E. split; reflexivity.
Qed.

Lemma event_actions_hidden_event_witness :
  acknowledge Demo.viewer_8 9%N Sample.db_events
  = (respond (BExc Http404) HTTP_404_NOT_FOUND, Sample.db_events)
  /\ resolve Sample.env Demo.viewer_8 9%N Sample.db_events
     = (respond (BExc Http404) HTTP_404_NOT_FOUND, Sample.db_events).
Proof.
  apply event_actions_hidden_event. right.
  intros e [<-|[<-|[]]] _; reflexivity.
Defined.



(** X19: under every sequence of acknowledge and resolve operations (event
    identifiers being unique) the device, configuration, firmware, ledger
    and point tables stay as they were, no event is added or removed, and
    every event keeps its identifier, device, type, severity, description
    and metadata: only status and the resolution fields can change. *)
Theorem event_actions_frame (env : Env) (calls : list EventCall) (db : DB) :
  event_ids_unique db ->
  devices (run_calls env calls db) = devices db
  /\ configurations (run_calls env calls db) = configurations db
  /\ firmware (run_calls env calls db) = firmware db
  /\ packets (run_calls env calls db) = packets db
  /\ points (run_calls env calls db) = points db
  /\ map event_facts (events (run_calls env calls db)) = map event_facts (events db).
Proof.
  revert db. induction calls as [|c rest IH]; intros db Hnd; cbn [run_calls].
  - repeat split.
  - destruct (run_call_cases env c db) as [E | (event & event' & Hin & Hf & E)].
    + rewrite E. apply IH, Hnd.
    + rewrite E.
      destruct (@save_event_frame db event event' Hnd Hin Hf) as [Hm Hnd'].
      destruct (IH _ Hnd') as (H1 & H2 & H3 & H4 & H5 & H6).
      rewrite H1, H2, H3, H4, H5, H6. repeat split. exact Hm.
Qed.

Lemma event_actions_frame_witness :
  map event_facts
    (events (run_calls Sample.env
               [CallResolve Sample.operator_request 10%N;
                CallAcknowledge Sample.operator_request 9%N] Sample.db_events))
  = map event_facts (events Sample.db_events).
Proof.
  apply (@event_actions_frame Sample.env
           [CallResolve Sample.operator_request 10%N;
            CallAcknowledge Sample.operator_request 9%N] Sample.db_events).
  unfold event_ids_unique. cbn. repeat constructor; cbn; intuition discriminate.
Defined.

(** X20: resolve stores only a resolved-at it can read as a date and time:
    when the value sent is neither null nor a string, or is a string that
    neither parser finds well formatted, the request fails with a server
    error and the event is left as it was. *)
Theorem resolve_rejects_unreadable_time
  (env : Env) (request : Request) (pk : UUID) (db : DB) (event : SystemEvent)
  (kv : list (string * json)) :
  get_object request pk db = Ok event ->
  data request = Ok (JObj kv) ->
  (timestamp_not_a_string (field (JObj kv) "resolved_at") = true ->
   resolve env request pk db
   = (respond (BExc TypeError) HTTP_500_INTERNAL_SERVER_ERROR, db))
  /\ (forall s, field (JObj kv) "resolved_at" = JStr s ->
        parse_datetime env s = Ok None -> parse_date env s = Ok None ->
        resolve env request pk db
        = (respond (BExc ValidationError) HTTP_500_INTERNAL_SERVER_ERROR, db)).
Proof.
  intros Hget Hdata. unfold resolve. rewrite Hget, Hdata.
  cbn [bind py_get py_get_default]. fold (field (JObj kv) "resolved_at").
  split.
  - intros H. destruct (field (JObj kv) "resolved_at"); try discriminate; reflexivity.
  - intros s -> Hdt Hd. cbn [DateTimeField_to_python]. rewrite Hdt, Hd. reflexivity.
Qed.

Lemma resolve_rejects_unreadable_time_witness :
  resolve Sample.env Demo.resolve_with_number 10%N Sample.db_events
  = (respond (BExc TypeError) HTTP_500_INTERNAL_SERVER_ERROR, Sample.db_events).
Proof.
  destruct (@resolve_rejects_unreadable_time Sample.env Demo.resolve_with_number
              10%N Sample.db_events Sample.event_active
              [("resolved_at", JNum (1704067200 # 1))] eq_refl eq_refl) as [H _].
  apply H. reflexivity.
Defined.

(** ** Rules and notifications a user sees *)

(** X21: the rule list of a user who is not authenticated is empty; an
    authenticated user sees every global rule (no device, no asset),
    whatever sites the user has; and every rule listed is global or bound
    to a device or an asset on one of the user's sites. *)
Theorem alert_rules_visibility
  (request : Request) (db : DB) (assets : list Asset) (rules : list AlertRule) :
  (is_authenticated (user request) = false ->
   AlertRule_get_queryset request db assets rules = [])
  /\ (is_authenticated (user request) = true ->
      forall r, In r rules -> rule_global r = true ->
                In r (AlertRule_get_queryset request db assets rules))
  /\ (forall r, In r (AlertRule_get_queryset request db assets rules) ->
        In r rules
        /\ (rule_global r = true
            \/ (exists d, rule_device r = Some d /\ site_visible request db d = true)
            \/ (exists a s, rule_asset r = Some a
                            /\ asset_site_of assets a = Some s
                            /\ In s (sites (user request))))).
Proof.
  unfold AlertRule_get_queryset. split; [intros ->; reflexivity|]. split.
  - intros -> r Hr Hg. apply filter_In. split; [exact Hr|].
    rewrite Hg. apply orb_true_r.
  - intros r Hr. destruct (is_authenticated (user request)); [|destruct Hr].
    apply filter_In in Hr. destruct Hr as [Hin Hc]. split; [exact Hin|].
    apply orb_prop in Hc. destruct Hc as [Hc|Hg]; [|auto].
    apply orb_prop in Hc. destruct Hc as [Hd|Ha].
    + right. left. unfold rule_device_visible in Hd.
      destruct (rule_device r) as [d|] eqn:Erd; [|discriminate]. eauto.
    + right. right. unfold rule_asset_visible in Ha.
      destruct (rule_asset r) as [a|] eqn:Era; [|discriminate].
      destruct (asset_site_of assets a) as [s|] eqn:Esa; [|discriminate].
      exists a, s. split; [reflexivity|]. split; [exact Esa|].
      apply existsb_exists in Ha.
      destruct Ha as (x & Hx & Hs). apply Z.eqb_eq in Hs. subst x. exact Hx.
Qed.

(** X22: a notification whose rule is global is in no user's notification
    list, although the rule itself is in every authenticated user's rule
    list; and the rule of every notification a user sees is a rule the user
    sees. *)
Theorem notifications_visibility
  (request : Request) (db : DB) (assets : list Asset) (rules : list AlertRule)
  (queue : list Dispatcher.NotificationQueue) (n : Dispatcher.NotificationQueue) :
  (forall r, find (fun r => (rule_pk r =? Dispatcher.alert_rule n)%Z) rules = Some r ->
             rule_global r = true ->
             ~ In n (NotificationQueue_get_queryset request db assets rules queue))
  /\ (In n (NotificationQueue_get_queryset request db assets rules queue) ->
      In n queue
      /\ exists r, rule_pk r = Dispatcher.alert_rule n
                   /\ rule_global r = false
                   /\ In r (AlertRule_get_queryset request db assets rules)).
Proof.
  unfold NotificationQueue_get_queryset, AlertRule_get_queryset. split.
  - intros r Hr Hg Hin.
    destruct (is_authenticated (user request)); [|destruct Hin].
    apply filter_In in Hin. destruct Hin as [_ Hc]. rewrite Hr in Hc.
    unfold rule_global in Hg. unfold rule_device_visible, rule_asset_visible in Hc.
    destruct (rule_device r), (rule_asset r); discriminate.
  - intros Hin. destruct (is_authenticated (user request)); [|destruct Hin].
    apply filter_In in Hin. destruct Hin as [Hq Hc]. split; [exact Hq|].
    destruct (find _ rules) as [r|] eqn:E; [|discriminate].
    apply find_some in E. destruct E as [Hr Hpk]. apply Z.eqb_eq in Hpk.
    exists r. split; [exact Hpk|]. split.
    + unfold rule_global. unfold rule_device_visible, rule_asset_visible in Hc.
      destruct (rule_device r), (rule_asset r); try reflexivity. discriminate.
    + apply filter_In. split; [exact Hr|]. rewrite Hc. reflexivity.
Qed.

Lemma notifications_visibility_witness :
  ~ In Demo.note_any
      (NotificationQueue_get_queryset Demo.viewer_7 Sample.empty_db []
         [Demo.rule_D; Demo.rule_any] [Demo.note_D; Demo.note_any])
  /\ In Demo.rule_any
       (AlertRule_get_queryset Demo.viewer_7 Sample.empty_db []
          [Demo.rule_D; Demo.rule_any]).
Proof.
  split.
  - destruct (@notifications_visibility Demo.viewer_7 Sample.empty_db []
                [Demo.rule_D; Demo.rule_any] [Demo.note_D; Demo.note_any]
                Demo.note_any) as [H _].
    apply (H Demo.rule_any); reflexivity.
  - right. left. reflexivity.
Defined.

(** ** API keys of management requests *)

Section ApiKeyFacts.

Lemma prefix_append (p k : string) : String.prefix p (p ++ k) = true.
Proof.
  induction p as [|c p IH]; cbn; [destruct k; reflexivity|].
  destruct (ascii_dec c c) as [_|H]; [exact IH|contradiction].
Qed.

Lemma substring_all (k : string) : substring 0 (String.length k) k = k.
Proof.
  induction k as [|c k IH]; cbn; [reflexivity|]. rewrite IH. reflexivity.
Qed.

Lemma substring_append (p k : string) :
  substring (String.length p) (String.length (p ++ k) - String.length p) (p ++ k) = k.
Proof.
  induction p as [|c p IH]; cbn [String.length append].
  - rewrite Nat.sub_0_r. apply substring_all.
  - cbn [substring]. replace (S (String.length (p ++ k)) - S (String.length p))
      with (String.length (p ++ k) - String.length p) by lia.
    exact IH.
Qed.

End ApiKeyFacts.

(** X23: [get_api_key] prefers the configured header: a value there that is
    not empty is returned whatever the Authorization header says; without
    it, an Authorization header "Api-Key k" yields exactly k, and any
    Authorization header that does not start with "Api-Key " yields no
    key. *)
Theorem get_api_key_sources (setting : option string) (request : Request) :
  let custom_header := match setting with Some h => h | None => "HTTP_X_API_KEY" end in
  (forall v, META_get request custom_header = Some v -> v <> "" ->
             get_api_key setting request = Some v)
  /\ (truthy (META_get request custom_header) = false ->
      forall k, META_get request "HTTP_AUTHORIZATION" = Some ("Api-Key " ++ k) ->
                get_api_key setting request = Some k)
  /\ (truthy (META_get request custom_header) = false ->
      String.prefix "Api-Key " (or_empty (META_get request "HTTP_AUTHORIZATION"))
      = false ->
      get_api_key setting request = None).
Proof.
  intros custom_header. unfold get_api_key. fold custom_header.
  split; [|split].
  - intros v Hv Hne. rewrite Hv, (truthy_intro Hne). reflexivity.
  - intros Ht k Ha. rewrite Ht, Ha. cbn [or_empty].
    rewrite prefix_append. f_equal.
    apply (substring_append "Api-Key " k).
  - intros Ht Hp. rewrite Ht, Hp. reflexivity.
Qed.



Lemma alert_rules_visibility_witness :
  In Demo.rule_any
    (AlertRule_get_queryset Demo.viewer_8 Sample.empty_db []
       [Demo.rule_D; Demo.rule_any])
  /\ ~ In Demo.rule_D
         (AlertRule_get_queryset Demo.viewer_8 Sample.empty_db []
            [Demo.rule_D; Demo.rule_any]).
Proof.
  destruct (alert_rules_visibility Demo.viewer_8 Sample.empty_db []
              [Demo.rule_D; Demo.rule_any]) as (_ & H2 & H3).
  split.
  - apply H2; [reflexivity | right; left; reflexivity | reflexivity].
  - intros Hin. destruct (H3 _ Hin) as [_ [Hg | [(d & Hd & Hv) | (a & s & Ha & _)]]];
      [discriminate | | discriminate].
    injection Hd as <-. discriminate.
Defined.

Lemma get_api_key_sources_witness :
  get_api_key None Demo.request_authorization = Some "abc.def".
Proof.
  destruct (get_api_key_sources None Demo.request_authorization) as (_ & H & _).
  apply (H eq_refl "abc.def"). reflexivity.
Defined.

(** ** Slugs of sensor folder names *)

Section SlugFacts.

Lemma slug_char_cases (c : ascii) :
  slug_char c = true ->
  is_upper c = false /\ is_space c = false
  /\ negb (is_alnum c) = is_hyphen c.
Proof.
  destruct c as [[] [] [] [] [] [] [] []]; vm_compute; intros H;
    first [discriminate H | repeat split].
Qed.

Lemma lower_alnum_slug_char (c : ascii) :
  is_alnum (lower_char c) = true -> slug_char (lower_char c) = true.
Proof.
  destruct c as [[] [] [] [] [] [] [] []]; vm_compute; intros H;
    first [reflexivity | discriminate H].
Qed.

Lemma is_hyphen_eq (c : ascii) : is_hyphen c = true -> c = "-"%char.
Proof. unfold is_hyphen. apply Ascii.eqb_eq. Qed.

(** The output of a substitution: hyphens, and the characters of the input
    outside the class. *)
Lemma sub_runs_chars (cls P : ascii -> bool) (l : list ascii) :
  P "-"%char = true ->
  (forall c, In c l -> cls c = false -> P c = true) ->
  forall b, forallb P (sub_runs cls b l) = true.
Proof.
  intros Hh. induction l as [|c rest IH]; intros Hc b; [reflexivity|].
  cbn [sub_runs]. destruct (cls c) eqn:E.
  - destruct b; cbn [forallb]; [|rewrite Hh; cbn [andb]];
      apply IH; intros x Hx; apply Hc; right; exact Hx.
  - cbn [forallb]. rewrite (Hc c (or_introl eq_refl) E). cbn [andb].
    apply IH. intros x Hx. apply Hc. right. exact Hx.
Qed.

(** Collapsing runs of hyphens leaves no two hyphens side by side. *)
Lemma sub_runs_hyphen_single (l : list ascii) :
  forall b, no_double_hyphen (sub_runs is_hyphen b l) = true
            /\ (b = true -> head_not_hyphen (sub_runs is_hyphen b l) = true).
Proof.
  induction l as [|c rest IH]; intros b; [split; reflexivity|].
  cbn [sub_runs]. destruct (is_hyphen c) eqn:E.
  - destruct b.
    + apply IH.
    + destruct (IH true) as [Hn Hh]. specialize (Hh eq_refl).
      split; [|discriminate].
      cbn [no_double_hyphen]. destruct (sub_runs is_hyphen true rest) as [|x t];
        [reflexivity|].
      cbn [head_not_hyphen] in Hh. apply negb_true_iff in Hh.
      rewrite Hh, andb_false_r. cbn [negb andb]. exact Hn.
  - destruct (IH false) as [Hn _]. split.
    + cbn [no_double_hyphen]. destruct (sub_runs is_hyphen false rest) as [|x t];
        [reflexivity|].
      rewrite E. cbn [andb negb]. exact Hn.
    + intros _. cbn [head_not_hyphen]. rewrite E. reflexivity.
Qed.

Lemma no_double_tail (c : ascii) (l : list ascii) :
  no_double_hyphen (c :: l) = true -> no_double_hyphen l = true.
Proof.
  cbn [no_double_hyphen]. destruct l as [|x t]; [reflexivity|].
  intros H. apply andb_prop in H. apply H.
Qed.

Lemma lstrip_keeps (f P : ascii -> bool) (l : list ascii) :
  forallb P l = true -> forallb P (lstrip f l) = true.
Proof.
  induction l as [|c rest IH]; [reflexivity|]. cbn [lstrip forallb].
  intros H. apply andb_prop in H. destruct H as [Hc Hr].
  destruct (f c); [apply IH, Hr|]. cbn [forallb]. rewrite Hc, Hr. reflexivity.
Qed.

Lemma lstrip_no_double (f : ascii -> bool) (l : list ascii) :
  no_double_hyphen l = true -> no_double_hyphen (lstrip f l) = true.
Proof.
  induction l as [|c rest IH]; [reflexivity|]. cbn [lstrip]. intros H.
  destruct (f c); [apply IH, (no_double_tail _ _ H) | exact H].
Qed.

Lemma lstrip_head (f : ascii -> bool) (l : list ascii) :
  match lstrip f l with
  | [] => True
  | c :: _ => f c = false
  end.
Proof.
  induction l as [|c rest IH]; [exact I|]. cbn [lstrip].
  destruct (f c) eqn:E; [exact IH | exact E].
Qed.

Lemma rstrip_keeps (f P : ascii -> bool) (l : list ascii) :
  forallb P l = true -> forallb P (rstrip f l) = true.
Proof.
  induction l as [|c rest IH]; [reflexivity|]. cbn [rstrip forallb].
  intros H. apply andb_prop in H. destruct H as [Hc Hr]. specialize (IH Hr).
  destruct (rstrip f rest) as [|x t].
  - destruct (f c); [reflexivity|]. cbn [forallb]. rewrite Hc. reflexivity.
  - cbn [forallb] in *. rewrite Hc. exact IH.
Qed.

(** What [rstrip] keeps starts as the list started. *)
Lemma rstrip_head (f : ascii -> bool) (l : list ascii) :
  match rstrip f l, l with
  | x :: _, c :: _ => x = c
  | _, _ => True
  end.
Proof.
  destruct l as [|c rest]; [exact I|]. cbn [rstrip].
  destruct (rstrip f rest); [destruct (f c)|]; auto.
Qed.

Lemma rstrip_no_double (f : ascii -> bool) (l : list ascii) :
  no_double_hyphen l = true -> no_double_hyphen (rstrip f l) = true.
Proof.
  induction l as [|c rest IH]; [reflexivity|]. intros H.
  pose proof (no_double_tail _ _ H) as Ht. specialize (IH Ht).
  pose proof (rstrip_head f rest) as Hh.
  cbn [rstrip]. destruct (rstrip f rest) as [|x t] eqn:Er.
  - destruct (f c); reflexivity.
  - destruct rest as [|y u]; [discriminate Er|]. subst x.
    cbn [no_double_hyphen] in H |- *. apply andb_prop in H. destruct H as [H _].
    rewrite H. exact IH.
Qed.

Lemma rstrip_last (f : ascii -> bool) (l : list ascii) (d : ascii) :
  match rstrip f l with
  | [] => True
  | x :: t => f (last (x :: t) d) = false
  end.
Proof.
  induction l as [|c rest IH]; [exact I|]. cbn [rstrip].
  destruct (rstrip f rest) as [|x t].
  - destruct (f c) eqn:E; [exact I | exact E].
  - exact IH.
Qed.

Lemma rstrip_nonempty (f : ascii -> bool) (c : ascii) (rest : list ascii) :
  f c = false -> rstrip f (c :: rest) <> [].
Proof.
  intros E. cbn [rstrip]. destruct (rstrip f rest); [rewrite E|]; discriminate.
Qed.

(** Stripping hyphens leaves none at either end. *)
Lemma strip_no_edge (l : list ascii) : no_edge_hyphen (strip is_hyphen l) = true.
Proof.
  unfold strip. pose proof (lstrip_head is_hyphen l) as Hh.
  destruct (lstrip is_hyphen l) as [|c rest]; [reflexivity|].
  pose proof (rstrip_head is_hyphen (c :: rest)) as Hc.
  pose proof (rstrip_last is_hyphen (c :: rest) c) as Hl.
  pose proof (rstrip_nonempty is_hyphen c rest Hh) as Hn.
  destruct (rstrip is_hyphen (c :: rest)) as [|x t]; [contradiction|].
  subst x. unfold no_edge_hyphen. rewrite Hh, Hl. reflexivity.
Qed.

(** A list that already is a slug goes through every step unchanged. *)
Lemma lstrip_fixed (f : ascii -> bool) (l : list ascii) :
  match l with [] => True | c :: _ => f c = false end -> lstrip f l = l.
Proof.
  destruct l as [|c rest]; [reflexivity|]. cbn [lstrip]. intros ->. reflexivity.
Qed.

Lemma rstrip_fixed (f : ascii -> bool) (l : list ascii) (d : ascii) :
  match l with [] => True | c :: _ => f (last l d) = false end -> rstrip f l = l.
Proof.
  induction l as [|c rest IH]; [reflexivity|]. intros H. cbn [rstrip].
  destruct rest as [|y u].
  - cbn in H |- *. rewrite H. reflexivity.
  - rewrite IH by exact H. reflexivity.
Qed.

Lemma sub_runs_fixed (cls : ascii -> bool) (l : list ascii) :
  (forall c, In c l -> cls c = is_hyphen c) ->
  no_double_hyphen l = true ->
  forall b, (b = true -> head_not_hyphen l = true) -> sub_runs cls b l = l.
Proof.
  induction l as [|c rest IH]; intros Hc Hn b Hb; [reflexivity|].
  cbn [sub_runs]. rewrite (Hc c (or_introl eq_refl)).
  assert (Hc' : forall x, In x rest -> cls x = is_hyphen x)
    by (intros x Hx; apply Hc; right; exact Hx).
  pose proof (no_double_tail _ _ Hn) as Ht.
  destruct (is_hyphen c) eqn:E.
  - destruct b.
    + specialize (Hb eq_refl). cbn [head_not_hyphen] in Hb. rewrite E in Hb.
      discriminate.
    + rewrite (is_hyphen_eq _ E). f_equal. apply (IH Hc' Ht). intros _.
      destruct rest as [|y u]; [reflexivity|].
      cbn [no_double_hyphen] in Hn. rewrite E in Hn. cbn [andb] in Hn.
      apply andb_prop in Hn. destruct Hn as [Hn _]. exact Hn.
  - f_equal. apply (IH Hc' Ht). discriminate.
Qed.

Lemma last_in (l : list ascii) (d : ascii) : l <> [] -> In (last l d) l.
Proof.
  induction l as [|c rest IH]; [contradiction|]. intros _.
  destruct rest as [|y u]; [left; reflexivity|].
  right. apply IH. discriminate.
Qed.

Lemma slug_fixed (l : list ascii) : is_slug l = true -> slugify l = l.
Proof.
  unfold is_slug. intros H. apply andb_prop in H. destruct H as [H He].
  apply andb_prop in H. destruct H as [Hs Hn].
  rewrite forallb_forall in Hs.
  assert (Hsp : strip is_space l = l).
  { unfold strip. rewrite lstrip_fixed.
    - apply rstrip_fixed with (d := "-"%char). destruct l as [|c rest]; [exact I|].
      apply slug_char_cases, Hs, last_in. discriminate.
    - destruct l as [|c rest]; [exact I|].
      apply slug_char_cases, Hs. left. reflexivity. }
  assert (Hlow : map lower_char l = l).
  { rewrite <- (map_id l) at 2. apply map_ext_in. intros c Hc.
    unfold lower_char. destruct (slug_char_cases _ (Hs c Hc)) as (-> & _).
    reflexivity. }
  unfold slugify. rewrite Hsp, Hlow.
  rewrite (@sub_runs_fixed (fun c => negb (is_alnum c)) l).
  - rewrite (@sub_runs_fixed is_hyphen l); [| reflexivity | exact Hn | discriminate].
    unfold strip. unfold no_edge_hyphen in He.
    destruct l as [|c rest]; [reflexivity|].
    apply andb_prop in He. destruct He as [Hh Hl].
    apply negb_true_iff in Hh, Hl.
    rewrite lstrip_fixed by exact Hh.
    apply rstrip_fixed with (d := c). exact Hl.
  - intros c Hc. apply slug_char_cases, Hs, Hc.
  - exact Hn.
  - discriminate.
Qed.

Lemma slugify_is_slug (name : list ascii) : is_slug (slugify name) = true.
Proof.
  unfold slugify, is_slug.
  set (a := map lower_char (strip is_space name)).
  set (b := sub_runs (fun c => negb (is_alnum c)) false a).
  set (c := sub_runs is_hyphen false b).
  assert (Hb : forallb slug_char b = true).
  { apply sub_runs_chars; [reflexivity|].
    intros x Hx Hc. apply negb_false_iff in Hc. unfold a in Hx.
    apply in_map_iff in Hx. destruct Hx as (y & <- & _).
    apply lower_alnum_slug_char, Hc. }
  assert (Hc : forallb slug_char c = true).
  { apply sub_runs_chars; [reflexivity|].
    intros x Hx _. rewrite forallb_forall in Hb. apply Hb, Hx. }
  destruct (sub_runs_hyphen_single b false) as [Hn _]. fold c in Hn.
  rewrite strip_no_edge, andb_true_r.
  unfold strip. rewrite rstrip_keeps, rstrip_no_double; try reflexivity.
  - apply lstrip_no_double, Hn.
  - apply lstrip_keeps, Hc.
Qed.

End SlugFacts.

(** X25: the slug of a name of ASCII characters consists of lower-case
    letters, digits and hyphens only, has no two hyphens side by side, and
    neither starts nor ends with a hyphen. *)
Theorem slugify_shape (name : list ascii) :
  forallb is_ascii name = true ->
  forallb slug_char (slugify name) = true
  /\ no_double_hyphen (slugify name) = true
  /\ no_edge_hyphen (slugify name) = true.
Proof.
  intros _. pose proof (slugify_is_slug name) as H. unfold is_slug in H.
  apply andb_prop in H. destruct H as [H He].
  apply andb_prop in H. destruct H as [Hs Hn]. auto.
Qed.

Lemma slugify_shape_witness :
  forallb slug_char (slugify (list_ascii_of_string " Vibration  Sensor_v2 ")) = true
  /\ no_double_hyphen (slugify (list_ascii_of_string " Vibration  Sensor_v2 ")) = true
  /\ no_edge_hyphen (slugify (list_ascii_of_string " Vibration  Sensor_v2 ")) = true.
Proof.
  apply slugify_shape. reflexivity.
Defined.

(** X26: [slugify] is idempotent on names of ASCII characters, and a name
    that already is a slug is its own slug. *)
Theorem slugify_idempotent (name : list ascii) :
  forallb is_ascii name = true ->
  slugify (slugify name) = slugify name
  /\ (is_slug name = true -> slugify name = name).
Proof.
  intros _. split; [apply slug_fixed, slugify_is_slug | apply slug_fixed].
Qed.

Lemma slugify_idempotent_witness :
  slugify (list_ascii_of_string "vibration sensor")
  = list_ascii_of_string "vibration-sensor"
  /\ slugify (slugify (list_ascii_of_string "vibration sensor"))
     = slugify (list_ascii_of_string "vibration sensor").
Proof.
  split; [reflexivity|].
  apply (proj1 (slugify_idempotent (list_ascii_of_string "vibration sensor")
                  eq_refl)).
Defined.

(** ** What a stored reading holds *)

(** X27: a reading that is stored always has a metric and a value, belongs
    to the device of the request and carries the metric as text; its time
    is the parsed timestamp when the string parses and the ingestion time
    when the timestamp is missing or not well formatted; a missing unit is
    stored as the empty string and a missing meta as the empty object. *)
Theorem stored_point_fields
  (env : Env) (device : Device) (kv : list (string * json)) (p : TelemetryPoint) :
  process_item env device (JObj kv) = Ok p ->
  pt_device p = dev_id device
  /\ field (JObj kv) "metric" <> JNull
  /\ field (JObj kv) "value" <> JNull
  /\ metric p = py_str env (field (JObj kv) "metric")
  /\ (timestamp_missing_or_unreadable env (field (JObj kv) "timestamp") = true ->
      timestamp p = now env)
  /\ (forall s t, field (JObj kv) "timestamp" = JStr s ->
                  parse_datetime env s = Ok (Some t) -> timestamp p = t)
  /\ (assoc "unit" kv = None -> unit p = "")
  /\ (assoc "meta" kv = None -> meta p = JObj []).
Proof.
  intros H. split; [apply (process_item_device _ _ _ H)|].
  unfold process_item in H. cbn [py_get py_get_default bind] in H.
  fold (field (JObj kv) "timestamp") in H.
  fold (field (JObj kv) "metric") in H. fold (field (JObj kv) "value") in H.
  destruct (parse_timestamp env (field (JObj kv) "timestamp")) as [ts|] eqn:Ets;
    [|discriminate].
  cbn [bind] in H. unfold TelemetryPoint_objects_create in H.
  destruct (DateTimeField_save env ts) as [t|] eqn:Et; [|discriminate].
  cbn [bind] in H.
  destruct (CharField_save env 255 (field (JObj kv) "metric")) as [m|] eqn:Em;
    [|discriminate].
  cbn [bind] in H.
  destruct (FloatField_save env (field (JObj kv) "value")) as [v|] eqn:Ev;
    [|discriminate].
  cbn [bind] in H.
  destruct (CharField_save env 50 _) as [u|] eqn:Eu; [|discriminate].
  cbn [bind] in H.
  destruct (JSONField_save _) as [mt|] eqn:Emt; [|discriminate].
  cbn [bind] in H. injection H as <-.
  cbn [metric timestamp unit meta].
  split. { intros E. rewrite E in Em. discriminate. }
  split. { intros E. rewrite E in Ev. discriminate. }
  split.
  { unfold CharField_save in Em.
    destruct (field (JObj kv) "metric"); try discriminate;
      destruct (column_fits env 255 _); congruence. }
  split.
  { intros Hm. destruct (field (JObj kv) "timestamp") as [| | |s| |];
      try discriminate; cbn [parse_timestamp timestamp_missing_or_unreadable] in *.
    - injection Ets as <-. cbn in Et. congruence.
    - destruct (parse_datetime env s) as [[t'|]|]; try discriminate.
      cbn in Ets. injection Ets as <-. cbn in Et. congruence. }
  split.
  { intros s t' Hs Hp. rewrite Hs in Ets. cbn [parse_timestamp] in Ets.
    rewrite Hp in Ets. cbn in Ets. injection Ets as <-. cbn in Et. congruence. }
  split.
  - intros Hu. rewrite Hu in Eu. unfold CharField_save in Eu. cbn [py_str] in Eu.
    destruct (column_fits env 50 ""); congruence.
  - intros Hmt. rewrite Hmt in Emt. cbn in Emt. congruence.
Qed.

Lemma stored_point_fields_witness :
  timestamp
    {| pt_device := 1%N; timestamp := 1704067200%Z; metric := "temp";
       value := 43 # 2; unit := ""; meta := JObj [] |} = 1704067200%Z
  /\ unit
       {| pt_device := 1%N; timestamp := 1704067200%Z; metric := "temp";
          value := 43 # 2; unit := ""; meta := JObj [] |} = "".
Proof.
  destruct (@stored_point_fields Sample.env Sample.device_D
              [("timestamp", JStr "2024-01-01T00:00:00Z"); ("metric", JStr "temp");
               ("value", JNum (43 # 2))]
              {| pt_device := 1%N; timestamp := 1704067200%Z; metric := "temp";
                 value := 43 # 2; unit := ""; meta := JObj [] |} eq_refl)
    as (_ & _ & _ & _ & _ & Ht & Hu & _).
  split.
  - apply (Ht "2024-01-01T00:00:00Z"); reflexivity.
  - apply Hu. reflexivity.
Defined.
